(** * scripts/concatenate_lib_classes.py: concatenation of the TypeScript
    sources of [src/] and [tests/] into [classes.txt]

    The script is eighteen lines of Python that talk to the operating system
    through [os.path], [glob.glob] and [open].  The development below embeds
    it over a model of a POSIX file system:

    - paths are strings, handled by the functions of [posixpath];
    - the file system is a finite map from path strings to nodes, a node
      being a regular file with its content or a directory with its entry
      names in the order the operating system enumerates them;
    - the script is a computation in a state-and-exception monad over that
      map: an uncaught Python exception ends the run and keeps every effect
      performed before it.

    The storage medium can refuse to let the output file grow beyond a
    number of characters (a file size limit, a full disk): the write that
    reaches the limit stores what still fits and raises [OSError].

    What the model leaves out: links (two paths never denote the same file),
    permissions, encodings (every content decodes) and other processes. *)

From Stdlib Require Import Ascii String.
From stdpp Require Import gmap strings list fin_maps.

Local Open Scope string_scope.
#[local] Arguments String.append !_ _ / : simpl nomatch.

(** ** Characters and strings *)

Definition LF : ascii := "010"%char.
Definition CR : ascii := "013"%char.

(** ["\n"], the string written after every block. *)
Definition newline : string := String LF "".

(** [s.endswith(t)] *)
Fixpoint endswith (s t : string) : bool :=
  String.eqb s t ||
  match s with
  | "" => false
  | String _ r => endswith r t
  end.

(** [c in s] for a character [c]. *)
Fixpoint contains (c : ascii) (s : string) : bool :=
  match s with
  | "" => false
  | String d r => Ascii.eqb d c || contains c r
  end.

(** ** [posixpath]: the functions of [os.path] the script calls *)

Module posixpath.

Definition sep : ascii := "/"%char.

Definition startswith_sep (p : string) : bool :=
  match p with
  | String c _ => Ascii.eqb c sep
  | "" => false
  end.

Fixpoint endswith_sep (p : string) : bool :=
  match p with
  | "" => false
  | String c "" => Ascii.eqb c sep
  | String _ r => endswith_sep r
  end.

(** [isabs(s)]: [s.startswith('/')]. *)
Definition isabs (p : string) : bool := startswith_sep p.

(** [join(a, b)]: [b] when it is absolute, else [a + b] when [a] is empty
    or ends with a slash, else [a + '/' + b]. *)
Definition join (a b : string) : string :=
  if startswith_sep b then b
  else if String.eqb a "" || endswith_sep a then a +:+ b
  else a +:+ String sep b.

(** [head == sep*len(head)] *)
Fixpoint all_sep (p : string) : bool :=
  match p with
  | "" => true
  | String c r => Ascii.eqb c sep && all_sep r
  end.

(** [head.rstrip(sep)] *)
Fixpoint rstrip_sep (p : string) : string :=
  match p with
  | "" => ""
  | String c r => if all_sep p then "" else String c (rstrip_sep r)
  end.

(** [(p[:i], p[i:])] for [i = p.rfind(sep) + 1]. *)
Fixpoint cut (p : string) : string * string :=
  match p with
  | "" => ("", "")
  | String c r =>
      if Ascii.eqb c sep || contains sep r
      then (String c (cut r).1, (cut r).2)
      else ("", p)
  end.

(** [split(p)]: the part up to the last slash, without its trailing
    slashes unless it consists of slashes only, and the part after it. *)
Definition split (p : string) : string * string :=
  let '(head, tail) := cut p in
  (if negb (String.eqb head "") && negb (all_sep head)
   then rstrip_sep head else head, tail).

Definition dirname (p : string) : string := (split p).1.
Definition basename (p : string) : string := (split p).2.

(** [path.split(sep)] of [str]: never an empty list. *)
Fixpoint str_split (p : string) : list string :=
  match p with
  | "" => [""]
  | String c r =>
      if Ascii.eqb c sep then "" :: str_split r
      else match str_split r with
           | h :: t => String c h :: t
           | [] => [String c ""]
           end
  end.

(** [sep.join(comps)] *)
Fixpoint sep_join (comps : list string) : string :=
  match comps with
  | [] => ""
  | [c] => c
  | c :: r => c +:+ String sep (sep_join r)
  end.

(** [sep * n] *)
Fixpoint seps (n : nat) : string :=
  match n with
  | O => ""
  | S k => String sep (seps k)
  end.

(** The number of initial slashes as [normpath] counts them: none, one,
    or two when the path starts with exactly two. *)
Definition initial_slashes (path : string) : nat :=
  match path with
  | String a (String b (String c _)) =>
      if Ascii.eqb a sep
      then if Ascii.eqb b sep && negb (Ascii.eqb c sep) then 2 else 1
      else 0
  | String a (String b "") =>
      if Ascii.eqb a sep then if Ascii.eqb b sep then 2 else 1 else 0
  | String a "" => if Ascii.eqb a sep then 1 else 0
  | "" => 0
  end.

(** One turn of the loop of [normpath] over the components. *)
Definition norm_step (slashes : nat) (new_comps : list string) (comp : string)
  : list string :=
  if String.eqb comp "" || String.eqb comp "." then new_comps
  else if negb (String.eqb comp "..")
          || (Nat.eqb slashes 0 && bool_decide (new_comps = []))
          || bool_decide (last new_comps = Some "..")
  then new_comps ++ [comp]
  else removelast new_comps.

Definition normpath (path : string) : string :=
  if String.eqb path "" then "."
  else
    let slashes := initial_slashes path in
    let comps := fold_left (norm_step slashes) (str_split path) [] in
    let path' := seps slashes +:+ sep_join comps in
    if String.eqb path' "" then "." else path'.

(** [abspath(path)], with the working directory [os.getcwd()] explicit. *)
Definition abspath (cwd path : string) : string :=
  normpath (if isabs path then path else join cwd path).

End posixpath.

(** ** The file system *)

(** A node is a regular file with its bytes or a directory with the names of
    its entries, in enumeration order.  A name listed in a directory whose
    path is not in the map is an entry that cannot be opened (it was removed
    after the listing, or it is a dangling link). *)
Inductive node : Type :=
| File (content : string)
| Dir (names : list string).

Abbreviation FS := (gmap string node).

(** The exceptions of this model: the subclasses of [OSError] that [open]
    raises, and the plain [OSError] of a write the medium refuses ([EFBIG],
    [ENOSPC]). *)
Inductive exn : Type :=
| FileNotFoundError (path : string)
| IsADirectoryError (path : string)
| NotADirectoryError (path : string)
| OSError (path : string).

(** How a computation ends: normally, by an uncaught exception, or outside
    what the model of [glob.glob] covers. *)
Inductive outcome (A : Type) : Type :=
| Done (a : A)
| Raised (e : exn)
| Unmodelled.
Arguments Done {A} a.
Arguments Raised {A} e.
Arguments Unmodelled {A}.

(** State and exceptions: the file system is threaded through, and an
    exception keeps the file system it was raised in. *)
Definition M (A : Type) : Type := FS -> FS * outcome A.

Definition ret {A} (a : A) : M A := fun fs => (fs, Done a).

Definition bind {A B} (m : M A) (k : A -> M B) : M B :=
  fun fs =>
    match m fs with
    | (fs', Done a) => k a fs'
    | (fs', Raised e) => (fs', Raised e)
    | (fs', Unmodelled) => (fs', Unmodelled)
    end.

Declare Scope py_scope.
Delimit Scope py_scope with py.
Notation "x <- m ;; k" := (bind m (fun x => k))
  (at level 100, m at next level, right associativity) : py_scope.
Notation "m ;; k" := (bind m (fun _ => k))
  (at level 100, right associativity) : py_scope.

(** [for x in l: body(x)] *)
Fixpoint for_each {A} (l : list A) (body : A -> M unit) : M unit :=
  match l with
  | [] => ret tt
  | x :: r => (body x ;; for_each r body)%py
  end.

(** *** [open], [read], [write] *)

(** Text mode with the default [newline=None]: on input ["\r\n"] and a lone
    ["\r"] are both translated into ["\n"] before [read()] returns. *)
Fixpoint universal_newlines (s : string) : string :=
  match s with
  | "" => ""
  | String c r =>
      if Ascii.eqb c CR
      then String LF (match r with
                      | String d r' =>
                          if Ascii.eqb d LF then universal_newlines r'
                          else universal_newlines r
                      | "" => ""
                      end)
      else String c (universal_newlines r)
  end.

(** [with open(filepath, 'r') as infile: infile.read()] *)
Definition read_text (filepath : string) : M string :=
  fun fs =>
    match fs !! filepath with
    | Some (File content) => (fs, Done (universal_newlines content))
    | Some (Dir _) => (fs, Raised (IsADirectoryError filepath))
    | None => (fs, Raised (FileNotFoundError filepath))
    end.

(** [open(path, 'w')]: an existing regular file is truncated, a missing one
    is created empty in its directory.  The result is the handle, which the
    model identifies with the path. *)
Definition open_w (path : string) : M string :=
  fun fs =>
    match fs !! path with
    | Some (File _) => (<[path := File ""]> fs, Done path)
    | Some (Dir _) => (fs, Raised (IsADirectoryError path))
    | None =>
        match fs !! posixpath.dirname path with
        | Some (Dir names) =>
            (<[path := File ""]>
               (<[posixpath.dirname path := Dir (names ++ [posixpath.basename path])]> fs),
             Done path)
        | Some (File _) => (fs, Raised (NotADirectoryError path))
        | None => (fs, Raised (FileNotFoundError path))
        end
    end.

(** [open(path, 'a')]: as ['w'] but an existing file keeps its content. *)
Definition open_a (path : string) : M string :=
  fun fs =>
    match fs !! path with
    | Some (File _) => (fs, Done path)
    | Some (Dir _) => (fs, Raised (IsADirectoryError path))
    | None =>
        match fs !! posixpath.dirname path with
        | Some (Dir names) =>
            (<[path := File ""]>
               (<[posixpath.dirname path := Dir (names ++ [posixpath.basename path])]> fs),
             Done path)
        | Some (File _) => (fs, Raised (NotADirectoryError path))
        | None => (fs, Raised (FileNotFoundError path))
        end
    end.

(** The text of a regular file, [None] for anything else. *)
Definition content_of (fs : FS) (path : string) : option string :=
  match fs !! path with
  | Some (File content) => Some content
  | _ => None
  end.

Definition append_content (s : string) (n : node) : node :=
  match n with
  | File content => File (content +:+ s)
  | Dir names => Dir names
  end.

(** [s[:n]] *)
Fixpoint str_take (n : nat) (s : string) : string :=
  match n, s with
  | S k, String c r => String c (str_take k r)
  | _, _ => ""
  end.

(** [outfile.write(s)], on a medium that lets the file grow to [room]
    characters ([None]: without limit).  On POSIX the text layer writes
    ["\n"] as it is.  When the text does not fit, the characters that fit
    reach the file and [OSError] is raised.

    The text is buffered by Python and reaches the file at the latest when
    the [with] block is left, normally or by an exception; an [OSError] of
    the medium is raised by the write or the [close] that flushes the
    buffer, and replaces an exception that was leaving the block.  The
    model stores the text and raises at once, which gives the same file and
    the same exception when the block is left. *)
Definition write (room : option nat) (outfile : string) (s : string)
  : M unit :=
  fun fs =>
    match room with
    | None => (alter (append_content s) outfile fs, Done tt)
    | Some r =>
        let size := String.length (default "" (content_of fs outfile)) in
        if Nat.leb (size + String.length s) r
        then (alter (append_content s) outfile fs, Done tt)
        else (alter (append_content (str_take (r - size) s)) outfile fs,
              Raised (OSError outfile))
    end.

(** *** [glob.glob] *)

(** [fnmatch] on POSIX for patterns made of [*], [?] and literal characters
    ([*] and [?] match any characters, a newline and a dot included). *)
Fixpoint fnmatchcase (pat name : string) {struct pat} : bool :=
  match pat with
  | "" => String.eqb name ""
  | String c pat' =>
      if Ascii.eqb c "*" then
        (fix star (n : string) : bool :=
           fnmatchcase pat' n ||
           match n with
           | "" => false
           | String _ n' => star n'
           end) name
      else
        match name with
        | "" => false
        | String d name' =>
            (Ascii.eqb c "?" || Ascii.eqb c d) && fnmatchcase pat' name'
        end
  end.

(** [glob.has_magic]: one of [*], [?], [[] occurs. *)
Definition has_magic (s : string) : bool :=
  contains "*" s || contains "?" s || contains "[" s.

(** [glob._ishidden] *)
Definition ishidden (name : string) : bool :=
  match name with
  | String c _ => Ascii.eqb c "."
  | "" => false
  end.

(** [glob._listdir]: the entries of a directory; every [OSError] of the scan
    (no such directory, not a directory) is swallowed and gives no entry. *)
Definition listdir (fs : FS) (dirname : string) : list string :=
  match fs !! dirname with
  | Some (Dir names) => names
  | _ => []
  end.

(** [glob._glob1]: hidden names are dropped unless the pattern itself starts
    with a dot, then [fnmatch.filter] keeps the matching names in order. *)
Definition glob1 (fs : FS) (dirname pattern : string) : list string :=
  let names := listdir fs dirname in
  let names :=
    if negb (ishidden pattern)
    then List.filter (fun x => negb (ishidden x)) names
    else names in
  List.filter (fnmatchcase pattern) names.

(** [os.path.lexists] and [os.path.isdir] *)
Definition lexists (fs : FS) (path : string) : bool :=
  bool_decide (is_Some (fs !! path)).

Definition isdir (fs : FS) (path : string) : bool :=
  match fs !! path with
  | Some (Dir _) => true
  | _ => false
  end.

(** [glob.glob(pathname)], for a pathname whose directory part is literal:
    without wildcard it is the pathname itself if it exists; with wildcards
    in the last component it is the matching entries of the directory, each
    joined to the directory part.  Wildcards in the directory part, a
    bracket expression, or an empty directory part (a scan of the working
    directory) are not covered: [None]. *)
Definition glob (fs : FS) (pathname : string) : option (list string) :=
  let '(dirname, basename) := posixpath.split pathname in
  if negb (has_magic pathname) then
    if negb (String.eqb basename "")
    then Some (if lexists fs pathname then [pathname] else [])
    else Some (if isdir fs dirname then [pathname] else [])
  else if String.eqb dirname "" || has_magic dirname || contains "[" basename
  then None
  else Some (map (posixpath.join dirname) (glob1 fs dirname basename)).

Definition glob_glob (pathname : string) : M (list string) :=
  fun fs =>
    match glob fs pathname with
    | Some paths => (fs, Done paths)
    | None => (fs, Unmodelled)
    end.

(** ** The script *)

(** What the interpreter hands to the script. *)
Record process : Type := {
  file : string;                  (* __file__ *)
  cwd : string;                   (* os.getcwd() *)
  argv : list string;             (* sys.argv[1:] *)
  environ : gmap string string    (* os.environ *)
}.

Definition script_dir (pr : process) : string :=
  posixpath.dirname (posixpath.dirname (posixpath.abspath (cwd pr) (file pr))).
Definition source_folder (pr : process) : string :=
  posixpath.join (script_dir pr) "src".
Definition test_folder (pr : process) : string :=
  posixpath.join (script_dir pr) "tests".
Definition output_file (pr : process) : string :=
  posixpath.join (script_dir pr) "classes.txt".

(** The body of both loops. *)
Definition copy_block (room : option nat) (outfile filepath : string)
  : M unit :=
  (text <- read_text filepath ;;
   write room outfile text ;;
   write room outfile newline)%py.

Definition concatenate_lib_classes (room : option nat) (pr : process)
  : M unit :=
  (outfile <- open_w (output_file pr) ;;
   paths <- glob_glob (posixpath.join (source_folder pr) "*.ts") ;;
   for_each paths (copy_block room outfile) ;;
   outfile <- open_a (output_file pr) ;;
   paths <- glob_glob (posixpath.join (test_folder pr) "*.ts") ;;
   for_each paths (copy_block room outfile))%py.

(** The file system after a run on a medium with the given room for the
    output file, and how the run ended. *)
Definition run_in (room : option nat) (pr : process) (fs : FS)
  : FS * outcome unit :=
  concatenate_lib_classes room pr fs.

(** The same on a medium that accepts every write. *)
Definition run (pr : process) (fs : FS) : FS * outcome unit :=
  run_in None pr fs.

(** ** Vocabulary of the statements *)

(** What [os.stat] tells about a path: nothing, a regular file with its
    content, or a directory. *)
Definition stat (fs : FS) (path : string) : option (option string) :=
  (λ n, match n with File content => Some content | Dir _ => None end)
    <$> fs !! path.

(** Two file systems that differ at most in the file [out] and in the
    listing of the directory that holds it. *)
Definition same_off (out : string) (fs fs' : FS) : Prop :=
  ∀ p, p ≠ out →
    stat fs' p = stat fs p ∧ (p ≠ posixpath.dirname out → fs' !! p = fs !! p).

(** [open(path, 'w')] succeeds: the path is a regular file, or it is free in
    an existing directory. *)
Definition can_open (fs : FS) (path : string) : bool :=
  match fs !! path with
  | Some (File _) => true
  | Some (Dir _) => false
  | None =>
      match fs !! posixpath.dirname path with
      | Some (Dir _) => true
      | _ => false
      end
  end.

Definition is_file (fs : FS) (path : string) : bool :=
  bool_decide (is_Some (content_of fs path)).

(** The medium accepts a file of [n] characters. *)
Definition fits (room : option nat) (n : nat) : bool :=
  match room with
  | None => true
  | Some r => Nat.leb n r
  end.

(** The part of a text the medium accepts. *)
Definition clip (room : option nat) (text : string) : string :=
  match room with
  | None => text
  | Some r => str_take r text
  end.

(** [''.join(l)] *)
Fixpoint flatten (l : list string) : string :=
  match l with
  | [] => ""
  | x :: r => x +:+ flatten r
  end.

(** The entries of a directory listing that [*.ts] selects, in the order of
    the listing: the name ends with [.ts] and does not start with a dot. *)
Definition matching_ts (names : list string) : list string :=
  List.filter (fun n => negb (ishidden n) && endswith n ".ts") names.

(** The paths the two loops visit, as the file system [fs] determines them. *)
Definition ts_paths (fs : FS) (folder : string) : list string :=
  map (posixpath.join folder) (matching_ts (listdir fs folder)).


(** The block of a file as the script writes it: the content as text mode
    reads it, and one newline. *)
Definition text_block (fs : FS) (path : string) : string :=
  universal_newlines (default "" (content_of fs path)) +:+ newline.

(** The exception [open(path, 'r')] raises on something that is not a
    regular file. *)
Definition open_error (fs : FS) (path : string) : exn :=
  match fs !! path with
  | Some (Dir _) => IsADirectoryError path
  | _ => FileNotFoundError path
  end.

(** The loop [for filepath in paths] read off the file system: the text it
    writes and the exception that stops it, if any. *)
Fixpoint copy_all (fs : FS) (paths : list string) : string * option exn :=
  match paths with
  | [] => ("", None)
  | p :: r =>
      if is_file fs p
      then (text_block fs p +:+ (copy_all fs r).1, (copy_all fs r).2)
      else ("", Some (open_error fs p))
  end.

Definition ended (e : option exn) : outcome unit :=
  match e with
  | None => Done tt
  | Some x => Raised x
  end.

(** A file name: not empty, not [.] or [..], and without a slash. *)
Definition is_name (n : string) : bool :=
  negb (String.eqb n "") && negb (String.eqb n ".")
  && negb (String.eqb n "..") && negb (contains posixpath.sep n).

(** The normalised absolute path [/c1/.../cn] with the given components. *)
Definition abs_path (comps : list string) : string :=
  flatten (map (String posixpath.sep) comps).

(** The directory with the given components, as [dirname] returns it: [/]
    for the root, else [/c1/.../cn]. *)
Definition root_of (comps : list string) : string :=
  match comps with
  | [] => String posixpath.sep ""
  | _ => abs_path comps
  end.

(** The absolute path with the given number of initial slashes and the
    given components: [anchored 1 [a; b]] is [/a/b], [anchored 1 []] is
    [/] and [anchored 2 [a]] is [//a]. *)
Definition anchored (slashes : nat) (comps : list string) : string :=
  posixpath.seps slashes +:+ posixpath.sep_join comps.

(** Where a path leads from the directory with the components [here],
    one component at a time: an empty component and [.] stay, [..] goes to
    the parent (the root is its own parent), any other name goes into the
    entry of that name.  This is the directory a path denotes on POSIX when
    no component is a link. *)
Definition resolve_step (here : list string) (comp : string) : list string :=
  if String.eqb comp "" || String.eqb comp "." then here
  else if String.eqb comp ".." then removelast here
  else here ++ [comp].

Definition resolve (here comps : list string) : list string :=
  fold_left resolve_step comps here.

(** ** Sample inputs *)

Definition proc0 : process :=
  {| file := "/repo/scripts/concatenate_lib_classes.py"; cwd := "/home/u";
     argv := []; environ := ∅ |}.

(** The same script started with an argument, an environment variable and
    another working directory. *)
Definition proc1 : process :=
  {| file := "/repo/scripts/concatenate_lib_classes.py"; cwd := "/tmp";
     argv := ["/elsewhere"]; environ := {["ROOT" := "/elsewhere"]} |}.

(** A repository whose [src/b.ts] has a Windows line ending. *)
Definition fs0 : FS :=
  list_to_map
    [("/repo", Dir ["scripts"; "src"; "tests"]);
     ("/repo/src", Dir ["b.ts"; ".hidden.ts"; "a.ts"; "x.txt"]);
     ("/repo/src/a.ts", File "class A {}");
     ("/repo/src/b.ts", File (String "B" (String CR (String LF "C"))));
     ("/repo/src/.hidden.ts", File "H");
     ("/repo/src/x.txt", File "notes");
     ("/repo/tests", Dir ["t.ts"]);
     ("/repo/tests/t.ts", File "test('x', () => {})")].


(** A repository whose [src/] has no match. *)
Definition fs_no_match : FS :=
  list_to_map
    [("/repo", Dir ["scripts"; "src"; "tests"; "classes.txt"]);
     ("/repo/classes.txt", File "stale");
     ("/repo/src", Dir ["README.md"; ".hidden.ts"]);
     ("/repo/src/README.md", File "read me");
     ("/repo/src/.hidden.ts", File "H");
     ("/repo/tests", Dir ["t.ts"; "u.ts"]);
     ("/repo/tests/t.ts", File "T");
     ("/repo/tests/u.ts", File "U")].


Definition fs_broken_tests : FS :=
  list_to_map
    [("/repo", Dir ["scripts"; "src"; "tests"; "classes.txt"]);
     ("/repo/classes.txt", File "stale");
     ("/repo/src", Dir ["a.ts"; "z.ts"]);
     ("/repo/src/a.ts", File "A");
     ("/repo/src/z.ts", File "Z");
     ("/repo/tests", Dir ["t.ts"; "gone.ts"; "u.ts"]);
     ("/repo/tests/t.ts", File "T");
     ("/repo/tests/u.ts", File "U")].

(** ** A variant of the script, and more sample inputs *)

(** The script with the output file kept open over both loops instead of
    being opened a second time in appending mode. *)
Definition single_pass (pr : process) : M unit :=
  (outfile <- open_w (output_file pr) ;;
   paths <- glob_glob (posixpath.join (source_folder pr) "*.ts") ;;
   paths' <- glob_glob (posixpath.join (test_folder pr) "*.ts") ;;
   for_each (paths ++ paths') (copy_block None outfile))%py.

(** A repository with a subdirectory and other files in [src/]. *)
Definition fs_tree : FS :=
  list_to_map
    [("/repo", Dir ["scripts"; "src"; "tests"]);
     ("/repo/src", Dir ["lib"; "a.ts"; "notes.txt"; ".hidden.ts"]);
     ("/repo/src/a.ts", File "A");
     ("/repo/src/notes.txt", File "notes");
     ("/repo/src/.hidden.ts", File "H");
     ("/repo/src/lib", Dir ["deep.ts"]);
     ("/repo/src/lib/deep.ts", File "D");
     ("/repo/tests", Dir ["t.ts"]);
     ("/repo/tests/t.ts", File "T")].

(** The same repository after edits to files [*.ts] does not select. *)
Definition fs_tree_edited : FS :=
  <["/repo/src/lib/deep.ts" := File "edited"]>
    (<["/repo/src/notes.txt" := File "edited"]>
       (<["/repo/src/.hidden.ts" := File "edited"]> fs_tree)).


(** A repository where [classes.txt] is a directory. *)
Definition fs_output_is_dir : FS :=
  list_to_map
    [("/repo", Dir ["scripts"; "src"; "tests"; "classes.txt"]);
     ("/repo/classes.txt", Dir []);
     ("/repo/src", Dir ["a.ts"]);
     ("/repo/src/a.ts", File "A");
     ("/repo/tests", Dir [])].



(** The script started by a relative path from [/repo/scripts]. *)
Definition proc_relative : process :=
  {| file := "./concatenate_lib_classes.py"; cwd := "/repo/scripts";
     argv := []; environ := ∅ |}.

(** The same with an argument and an environment variable. *)
Definition proc_relative_args : process :=
  {| file := "./concatenate_lib_classes.py"; cwd := "/repo/scripts";
     argv := ["/elsewhere"]; environ := {["ROOT" := "/elsewhere"]} |}.

(** The script started by an absolute path that is not normalised, from
    two working directories. *)
Definition proc_dotted : process :=
  {| file := "/repo/lib/..//scripts/./concatenate_lib_classes.py";
     cwd := "/home/u"; argv := []; environ := ∅ |}.

Definition proc_dotted_elsewhere : process :=
  {| file := "/repo/lib/..//scripts/./concatenate_lib_classes.py";
     cwd := "/tmp"; argv := ["x"]; environ := {["HOME" := "/"]} |}.

(** ** The model at work *)

Example split_examples :
  posixpath.split "/a/b//c.ts" = ("/a/b", "c.ts") ∧
  posixpath.split "/c.ts" = ("/", "c.ts") ∧
  posixpath.split "c.ts" = ("", "c.ts") ∧
  posixpath.split "//" = ("//", "").
Proof. repeat split; reflexivity. Qed.

Example abspath_examples :
  posixpath.abspath "/home/u" "proj/../repo/./scripts//x.py"
  = "/home/u/repo/scripts/x.py" ∧
  posixpath.abspath "/home/u" "//a/../../b" = "//b" ∧
  posixpath.abspath "/home/u" "///a/../../b/" = "/b" ∧
  posixpath.normpath "a/../.." = ".." ∧
  posixpath.normpath "a/.." = ".".
Proof. repeat split; reflexivity. Qed.

Example glob_examples :
  glob fs0 "/repo/src/*.ts" = Some ["/repo/src/b.ts"; "/repo/src/a.ts"] ∧
  glob fs0 "/repo/nowhere/*.ts" = Some [] ∧
  glob fs0 "/repo/src/a.ts" = Some ["/repo/src/a.ts"] ∧
  glob fs0 "/repo/src/" = Some ["/repo/src/"] ∧
  glob fs0 "/re*/src/*.ts" = None.
Proof. repeat split; reflexivity. Qed.

(** The two scenarios of the specification. *)
Example scenario_one :
  content_of
    (run proc0
       (list_to_map
          [("/repo", Dir ["src"; "tests"]);
           ("/repo/src", Dir ["a.ts"]);
           ("/repo/src/a.ts", File "class A {}");
           ("/repo/tests", Dir ["b.ts"]);
           ("/repo/tests/b.ts", File "test('x', () => {})")])).1
    "/repo/classes.txt"
  = Some ("class A {}" +:+ newline +:+ "test('x', () => {})" +:+ newline).
Proof. reflexivity. Qed.

Example scenario_two :
  content_of
    (run proc0
       (list_to_map
          [("/repo", Dir ["src"; "tests"]);
           ("/repo/src", Dir ["b.ts"; "a.ts"]);
           ("/repo/src/a.ts", File "A");
           ("/repo/src/b.ts", File "B");
           ("/repo/tests", Dir [])])).1
    "/repo/classes.txt"
  = Some ("B" +:+ newline +:+ "A" +:+ newline).
Proof. reflexivity. Qed.

(** A medium that lets the output file grow to 3, 11, 12 and 13
    characters: the file holds the first characters of the text, and the
    run ends with [OSError] unless all of it fits. *)
Example limited_medium_examples :
  let fs : FS :=
    list_to_map
      [("/repo", Dir ["src"; "tests"]);
       ("/repo/src", Dir ["a.ts"]);
       ("/repo/src/a.ts", File "class A {}");
       ("/repo/tests", Dir ["t.ts"]);
       ("/repo/tests/t.ts", File "T")] in
  let result room :=
    ((run_in room proc0 fs).2,
     content_of (run_in room proc0 fs).1 "/repo/classes.txt") in
  result (Some 3) = (Raised (OSError "/repo/classes.txt"), Some "cla") ∧
  result (Some 11)
  = (Raised (OSError "/repo/classes.txt"), Some ("class A {}" +:+ newline)) ∧
  result (Some 12)
  = (Raised (OSError "/repo/classes.txt"),
     Some ("class A {}" +:+ newline +:+ "T")) ∧
  result (Some 13)
  = (Done tt, Some ("class A {}" +:+ newline +:+ "T" +:+ newline)) ∧
  result None
  = (Done tt, Some ("class A {}" +:+ newline +:+ "T" +:+ newline)).
Proof. repeat split; reflexivity. Qed.

(** ** Facts about strings *)

Section strings.

Lemma append_nil_r (s : string) : s +:+ "" = s.
Proof. induction s as [|c s IH]; simpl; [done | by rewrite IH]. Qed.

Lemma append_assoc (a b c : string) : (a +:+ b) +:+ c = a +:+ (b +:+ c).
Proof. induction a as [|x a IH]; simpl; [done | by rewrite IH]. Qed.

Lemma length_append (a b : string) :
  String.length (a +:+ b) = String.length a + String.length b.
Proof. induction a as [|x a IH]; simpl; [done | by rewrite IH]. Qed.

Lemma contains_append (c : ascii) (a b : string) :
  contains c (a +:+ b) = contains c a || contains c b.
Proof.
  induction a as [|x a IH]; simpl; [done |].
  by rewrite IH, orb_assoc.
Qed.

(** Two equal strings have equal suffixes of the same length. *)
Lemma append_inj_suffix (x y s t : string) :
  x +:+ s = y +:+ t → String.length s = String.length t → s = t.
Proof.
  revert y. induction x as [|c x IH]; intros [|d y] E L; simpl in E.
  - done.
  - apply (f_equal String.length) in E. simpl in E.
    rewrite length_append in E. lia.
  - apply (f_equal String.length) in E. simpl in E.
    rewrite length_append in E. lia.
  - injection E as _ E. eauto.
Qed.

Lemma endswith_nil (t : string) : endswith "" t = String.eqb "" t.
Proof. unfold endswith. apply orb_false_r. Qed.

Lemma endswith_cons (c : ascii) (s t : string) :
  endswith (String c s) t = String.eqb (String c s) t || endswith s t.
Proof. reflexivity. Qed.

Lemma endswith_spec (s t : string) :
  endswith s t = true ↔ ∃ u, s = u +:+ t.
Proof.
  split.
  - induction s as [|c s IH].
    + rewrite endswith_nil. intros <-%String.eqb_eq. by exists "".
    + rewrite endswith_cons.
      intros [<-%String.eqb_eq | H]%orb_true_iff; [by exists "" |].
      destruct (IH H) as [u ->]. by exists (String c u).
  - intros [u ->]. induction u as [|c u IH].
    + change ("" +:+ t) with t. destruct t; [done |].
      by rewrite endswith_cons, String.eqb_refl.
    + change (String c u +:+ t) with (String c (u +:+ t)).
      by rewrite endswith_cons, IH, orb_true_r.
Qed.

Lemma endswith_append (a b : string) : endswith (a +:+ b) b = true.
Proof. apply endswith_spec. by exists a. Qed.

Lemma endswith_trans (a b c : string) :
  endswith a b = true → endswith b c = true → endswith a c = true.
Proof.
  rewrite !endswith_spec. intros [u ->] [v ->].
  exists (u +:+ v). by rewrite append_assoc.
Qed.

(** Strings that end differently are different. *)
Lemma endswith_differ (a b s t : string) :
  endswith a s = true → endswith b t = true →
  String.length s = String.length t → s ≠ t → a ≠ b.
Proof.
  rewrite !endswith_spec. intros [u ->] [v ->] L N E.
  by apply N, (append_inj_suffix u v).
Qed.

Lemma str_take_all (n : nat) (s : string) :
  (String.length s ≤ n)%nat → str_take n s = s.
Proof.
  revert n. induction s as [|c s IH]; intros [|n] H; simpl in *; try done.
  - lia.
  - rewrite IH; [done | lia].
Qed.

Lemma str_take_append_le (n : nat) (a b : string) :
  (n ≤ String.length a)%nat → str_take n (a +:+ b) = str_take n a.
Proof.
  revert n. induction a as [|c a IH]; intros [|n] H; simpl in *; try done.
  - lia.
  - rewrite IH; [done | lia].
Qed.

Lemma str_take_append_ge (n : nat) (a b : string) :
  (String.length a ≤ n)%nat →
  str_take n (a +:+ b) = a +:+ str_take (n - String.length a) b.
Proof.
  revert n. induction a as [|c a IH]; intros n H.
  - simpl. by rewrite Nat.sub_0_r.
  - destruct n as [|n]; simpl in *; [lia |]. rewrite IH; [done | lia].
Qed.

Lemma clip_fits (room : option nat) (s : string) :
  fits room (String.length s) = true → clip room s = s.
Proof.
  destruct room as [r |]; [| done]. simpl. intros H%Nat.leb_le.
  by apply str_take_all.
Qed.

(** What follows a text that does not fit is lost. *)
Lemma clip_append_over (room : option nat) (a b : string) :
  fits room (String.length a) = false →
  clip room (a +:+ b) = clip room a ∧
  fits room (String.length (a +:+ b)) = false.
Proof.
  destruct room as [r |]; [| done]. simpl. intros H%Nat.leb_gt. split.
  - apply str_take_append_le. lia.
  - apply Nat.leb_gt. rewrite length_append. lia.
Qed.

End strings.

(** ** Facts about [posixpath] *)

Module posixpath_facts.
Import posixpath.

Lemma endswith_sep_cons (c : ascii) (p : string) :
  p ≠ "" → endswith_sep (String c p) = endswith_sep p.
Proof. by destruct p. Qed.

Lemma endswith_sep_append (a b : string) :
  b ≠ "" → endswith_sep (a +:+ b) = endswith_sep b.
Proof.
  intros Hb. induction a as [|c a IH]; [done |].
  change (String c a +:+ b) with (String c (a +:+ b)).
  rewrite endswith_sep_cons; [done |]. by destruct a, b.
Qed.

Lemma endswith_sep_contains (p : string) :
  endswith_sep p = true → contains sep p = true.
Proof.
  induction p as [|c p IH]; [done |]. destruct p as [|d p].
  - simpl. by intros ->.
  - rewrite endswith_sep_cons by done. intros H.
    change (Ascii.eqb c sep || contains sep (String d p) = true).
    by rewrite IH, orb_true_r.
Qed.

Lemma all_sep_append (a b : string) :
  all_sep (a +:+ b) = all_sep a && all_sep b.
Proof.
  induction a as [|c a IH]; simpl; [done |]. by rewrite IH, andb_assoc.
Qed.

Lemma all_sep_endswith (p : string) :
  all_sep p = true → p = "" ∨ endswith_sep p = true.
Proof.
  induction p as [|c p IH]; [by left |]. simpl all_sep.
  intros [Hc Hp]%andb_true_iff. right. destruct p as [|d p]; [done |].
  rewrite endswith_sep_cons by done. by destruct (IH Hp).
Qed.

Lemma rstrip_sep_id (p : string) : endswith_sep p = false → rstrip_sep p = p.
Proof.
  induction p as [|c p IH]; [done |]. intros H.
  unfold rstrip_sep; fold rstrip_sep.
  destruct (all_sep (String c p)) eqn:A.
  - apply all_sep_endswith in A as [? | ?]; congruence.
  - f_equal. destruct p as [|d p]; [done |].
    apply IH. by rewrite endswith_sep_cons in H.
Qed.

Lemma rstrip_sep_append_sep (p : string) :
  rstrip_sep (p +:+ String sep "") = rstrip_sep p.
Proof.
  induction p as [|c p IH]; [done |].
  change (String c p +:+ String sep "") with (String c (p +:+ String sep "")).
  unfold rstrip_sep; fold rstrip_sep.
  assert (all_sep (String c (p +:+ String sep "")) = all_sep (String c p)) as ->.
  { simpl. rewrite all_sep_append. simpl. by rewrite andb_true_r. }
  by rewrite IH.
Qed.

Lemma length_rstrip_sep (p : string) :
  (String.length (rstrip_sep p) ≤ String.length p)%nat.
Proof.
  induction p as [|c p IH]; [done |].
  unfold rstrip_sep; fold rstrip_sep.
  destruct (all_sep (String c p)); simpl; lia.
Qed.

Lemma cut_plain (n : string) : contains sep n = false → cut n = ("", n).
Proof.
  destruct n as [|c n]; [done |]. simpl.
  intros [-> ->]%orb_false_iff. done.
Qed.

(** The last component is cut off after a part that ends with a slash. *)
Lemma cut_append (d n : string) :
  contains sep n = false → d = "" ∨ endswith_sep d = true →
  cut (d +:+ n) = (d, n).
Proof.
  intros Hn. induction d as [|c d IH]; intros Hd.
  - by apply cut_plain.
  - destruct Hd as [? | Hd]; [done |].
    change (String c d +:+ n) with (String c (d +:+ n)).
    unfold cut; fold cut.
    assert (Ascii.eqb c sep || contains sep (d +:+ n) = true) as ->.
    { destruct d as [|e d]; [simpl in *; by rewrite Hd |].
      rewrite endswith_sep_cons in Hd by done.
      by rewrite contains_append, (endswith_sep_contains _ Hd), orb_true_r. }
    rewrite IH; [done |].
    destruct d as [|e d]; [by left | right].
    by rewrite endswith_sep_cons in Hd.
Qed.

(** [split] undoes [join] of a directory and a plain name. *)
Lemma split_append_sep (x n : string) :
  x ≠ "" → endswith_sep x = false → contains sep n = false →
  split (x +:+ String sep n) = (x, n).
Proof.
  intros Hx Hend Hn. unfold split.
  replace (x +:+ String sep n) with ((x +:+ String sep "") +:+ n)
    by by rewrite append_assoc.
  rewrite cut_append; [| done | right; by apply endswith_sep_append].
  assert (all_sep (x +:+ String sep "") = false) as ->.
  { rewrite all_sep_append. destruct (all_sep x) eqn:A; [| done].
    apply all_sep_endswith in A as [? | ?]; congruence. }
  assert (String.eqb (x +:+ String sep "") "" = false) as ->.
  { apply String.eqb_neq. by destruct x. }
  simpl. by rewrite rstrip_sep_append_sep, rstrip_sep_id.
Qed.

Lemma length_dirname_append (d n : string) :
  contains sep n = false → d = "" ∨ endswith_sep d = true →
  (String.length (dirname (d +:+ n)) ≤ String.length d)%nat.
Proof.
  intros Hn Hd. unfold dirname, split. rewrite (cut_append _ _ Hn Hd).
  simpl. destruct (_ && _); [apply length_rstrip_sep | done].
Qed.

Lemma join_relative (a : string) :
  ∃ d, (d = a ∨ d = a +:+ String sep "") ∧
       (d = "" ∨ endswith_sep d = true) ∧
       ∀ b, startswith_sep b = false → join a b = d +:+ b.
Proof.
  destruct (String.eqb a "" || endswith_sep a) eqn:E.
  - exists a. split; [by left |]. split.
    + apply orb_true_iff in E as [->%String.eqb_eq | ?]; auto.
    + intros b Hb. unfold join. by rewrite Hb, E.
  - exists (a +:+ String sep ""). split; [by right |]. split.
    + right. by apply endswith_sep_append.
    + intros b Hb. unfold join. by rewrite Hb, E, append_assoc.
Qed.

Lemma endswith_join (a b : string) : endswith (join a b) b = true.
Proof.
  unfold join. destruct (startswith_sep b).
  - apply (endswith_append "").
  - destruct (_ || _); [apply endswith_append |].
    apply (endswith_trans _ (String sep b)); [apply endswith_append |].
    apply (endswith_append (String sep "")).
Qed.

End posixpath_facts.

(** ** Facts about [glob] *)

Section glob_facts.

Lemma fnmatchcase_literal (pat name : string) :
  contains "*" pat = false → contains "?" pat = false →
  fnmatchcase pat name = String.eqb name pat.
Proof.
  revert name. induction pat as [|c pat IH]; intros name Hs Hq.
  - by destruct name.
  - simpl in Hs, Hq.
    apply orb_false_iff in Hs as [Hs1 Hs2].
    apply orb_false_iff in Hq as [Hq1 Hq2].
    unfold fnmatchcase; fold fnmatchcase. rewrite Hs1.
    destruct name as [|d name]; [done |].
    rewrite Hq1, IH by done. simpl. by rewrite (Ascii.eqb_sym c d).
Qed.

Lemma fnmatchcase_star (pat name : string) :
  fnmatchcase (String "*" pat) name =
  fnmatchcase pat name ||
  match name with
  | "" => false
  | String _ name' => fnmatchcase (String "*" pat) name'
  end.
Proof. by destruct name. Qed.

(** [*.ts] selects the names that end with [.ts]. *)
Lemma fnmatchcase_ts (name : string) :
  fnmatchcase "*.ts" name = endswith name ".ts".
Proof.
  induction name as [|c name IH].
  - done.
  - rewrite fnmatchcase_star, IH, endswith_cons.
    by rewrite fnmatchcase_literal.
Qed.

Lemma filter_filter_bool {A} (f g : A → bool) (l : list A) :
  List.filter f (List.filter g l) = List.filter (λ x, g x && f x) l.
Proof.
  induction l as [|x l IH]; simpl; [done |].
  destruct (g x); simpl; [| done]. destruct (f x); by rewrite IH.
Qed.

Lemma glob1_ts (fs : FS) (folder : string) :
  glob1 fs folder "*.ts" = matching_ts (listdir fs folder).
Proof.
  unfold glob1, matching_ts. simpl negb. cbv iota.
  rewrite filter_filter_bool. apply List.filter_ext.
  intros n. by rewrite fnmatchcase_ts.
Qed.

Lemma has_magic_append (a b : string) :
  has_magic (a +:+ b) = has_magic a || has_magic b.
Proof.
  unfold has_magic. rewrite !contains_append.
  by repeat (destruct (contains _ _)).
Qed.

(** The pattern [folder/*.ts] of a literal folder lists that folder. *)
Lemma glob_ts (fs : FS) (folder : string) :
  folder ≠ "" → posixpath.endswith_sep folder = false →
  has_magic folder = false →
  glob fs (posixpath.join folder "*.ts") = Some (ts_paths fs folder).
Proof.
  intros Hne Hend Hmagic.
  assert (posixpath.join folder "*.ts" = folder +:+ String posixpath.sep "*.ts")
    as Hjoin.
  { unfold posixpath.join. rewrite Hend.
    apply String.eqb_neq in Hne. by rewrite Hne. }
  unfold glob. rewrite Hjoin.
  rewrite posixpath_facts.split_append_sep by done.
  rewrite has_magic_append, Hmagic.
  apply String.eqb_neq in Hne. rewrite Hne. simpl.
  by rewrite glob1_ts.
Qed.

End glob_facts.

(** ** The three paths of the script *)

Section paths.
Import posixpath posixpath_facts.
Variable pr : process.

(** The three paths share the stem [d]: the root, with a slash added
    unless it already ends with one. *)
Lemma script_paths :
  ∃ d, (d = script_dir pr ∨ d = script_dir pr +:+ String sep "") ∧
       (d = "" ∨ endswith_sep d = true) ∧
       source_folder pr = d +:+ "src" ∧
       test_folder pr = d +:+ "tests" ∧
       output_file pr = d +:+ "classes.txt".
Proof.
  destruct (join_relative (script_dir pr)) as (d & Hd & Hend & Hjoin).
  exists d. unfold source_folder, test_folder, output_file.
  by rewrite !Hjoin.
Qed.

Lemma has_magic_stem (d : string) :
  d = script_dir pr ∨ d = script_dir pr +:+ String sep "" →
  has_magic d = has_magic (script_dir pr).
Proof.
  intros [-> | ->]; [done |]. rewrite has_magic_append. apply orb_false_r.
Qed.

Lemma source_folder_literal :
  source_folder pr ≠ "" ∧ endswith_sep (source_folder pr) = false ∧
  has_magic (source_folder pr) = has_magic (script_dir pr).
Proof.
  destruct script_paths as (d & Hd & _ & -> & _). repeat split.
  - by destruct d.
  - by rewrite endswith_sep_append.
  - rewrite has_magic_append, (has_magic_stem d Hd). apply orb_false_r.
Qed.

Lemma test_folder_literal :
  test_folder pr ≠ "" ∧ endswith_sep (test_folder pr) = false ∧
  has_magic (test_folder pr) = has_magic (script_dir pr).
Proof.
  destruct script_paths as (d & Hd & _ & _ & -> & _). repeat split.
  - by destruct d.
  - by rewrite endswith_sep_append.
  - rewrite has_magic_append, (has_magic_stem d Hd). apply orb_false_r.
Qed.

Lemma output_file_not_folder :
  output_file pr ≠ source_folder pr ∧ output_file pr ≠ test_folder pr.
Proof.
  destruct script_paths as (d & _ & _ & -> & -> & ->).
  split; intros E; by apply (inj (String.append d)) in E.
Qed.

(** The directory of the output file is shorter than any of the paths. *)
Lemma output_dir_not_folder :
  dirname (output_file pr) ≠ source_folder pr ∧
  dirname (output_file pr) ≠ test_folder pr ∧
  dirname (output_file pr) ≠ output_file pr.
Proof.
  destruct script_paths as (d & _ & Hend & -> & -> & ->).
  pose proof (length_dirname_append d "classes.txt" eq_refl Hend) as L.
  repeat split; intros E; rewrite E, length_append in L; simpl in L; lia.
Qed.

Lemma endswith_output_file : endswith (output_file pr) ".txt" = true.
Proof.
  apply (endswith_trans _ "classes.txt"); [apply endswith_join | done].
Qed.

Lemma endswith_ts_paths (fs : FS) (folder p : string) :
  p ∈ ts_paths fs folder → endswith p ".ts" = true.
Proof.
  unfold ts_paths, matching_ts.
  intros (n & -> & Hn)%list_elem_of_fmap.
  apply list_elem_of_In, List.filter_In in Hn as [_ Hn].
  apply andb_true_iff in Hn as [_ Hn].
  by apply (endswith_trans _ n); [apply endswith_join |].
Qed.

(** No visited path is the output file: one ends with [.ts], the other
    with [txt]. *)
Lemma ts_paths_not_output (fs : FS) (folder : string) :
  Forall (λ p, p ≠ output_file pr) (ts_paths fs folder).
Proof.
  apply Forall_forall. intros p Hp%endswith_ts_paths.
  apply (endswith_differ p (output_file pr) ".ts" "txt"); [done | | done..].
  by apply (endswith_trans _ ".txt"); [apply endswith_output_file |].
Qed.

End paths.

(** ** Facts about the file system operations *)

Section operations.

Lemma stat_insert_ne (fs : FS) (k p : string) (n : node) :
  p ≠ k → stat (<[k := n]> fs) p = stat fs p.
Proof. intros H. unfold stat. by rewrite lookup_insert_ne. Qed.

Lemma same_off_refl (out : string) (fs : FS) : same_off out fs fs.
Proof. by intros p _. Qed.

Lemma same_off_trans (out : string) (fs1 fs2 fs3 : FS) :
  same_off out fs1 fs2 → same_off out fs2 fs3 → same_off out fs1 fs3.
Proof.
  intros H12 H23 p Hp.
  destruct (H12 p Hp) as [S12 L12], (H23 p Hp) as [S23 L23]. split.
  - by rewrite S23.
  - intros Hd. by rewrite L23, L12.
Qed.

Lemma same_off_insert (out : string) (fs : FS) (n : node) :
  same_off out fs (<[out := n]> fs).
Proof.
  intros p Hp. split; [by apply stat_insert_ne |].
  intros _. by rewrite lookup_insert_ne.
Qed.

(** What the loops look at in a file depends on [stat] alone. *)
Lemma stat_is_file (fs fs' : FS) (p : string) :
  stat fs' p = stat fs p →
  is_file fs' p = is_file fs p ∧ text_block fs' p = text_block fs p ∧
  open_error fs' p = open_error fs p.
Proof.
  unfold stat, is_file, text_block, open_error, content_of.
  destruct (fs !! p) as [[c | ns] |], (fs' !! p) as [[c' | ns'] |];
    intros E; simplify_eq/=; done.
Qed.

Lemma copy_all_ext (fs fs' : FS) (paths : list string) :
  Forall (λ p, stat fs' p = stat fs p) paths →
  copy_all fs' paths = copy_all fs paths.
Proof.
  induction 1 as [|p paths Hp _ IH]; [done |]. simpl.
  destruct (stat_is_file fs fs' p Hp) as (-> & -> & ->). by rewrite IH.
Qed.

Lemma listdir_same_off (out folder : string) (fs fs' : FS) :
  same_off out fs fs' → folder ≠ out → folder ≠ posixpath.dirname out →
  listdir fs' folder = listdir fs folder.
Proof.
  intros H Ho Hd. unfold listdir. by rewrite (proj2 (H folder Ho) Hd).
Qed.

Lemma read_text_spec (fs : FS) (p : string) :
  read_text p fs =
  (fs, if is_file fs p
       then Done (universal_newlines (default "" (content_of fs p)))
       else Raised (open_error fs p)).
Proof.
  unfold read_text, is_file, open_error, content_of.
  by destruct (fs !! p) as [[c | ns] |].
Qed.

(** Opening for writing, when it succeeds, leaves an empty file and
    touches nothing else but the listing of its directory. *)
Lemma open_w_done (fs : FS) (out : string) :
  can_open fs out = true →
  ∃ fs1, open_w out fs = (fs1, Done out) ∧
         <[out := File ""]> fs1 = fs1 ∧ same_off out fs fs1.
Proof.
  unfold can_open, open_w.
  destruct (fs !! out) as [[c | ns] |] eqn:E; [| done |].
  - intros _. eexists. split; [done |]. split.
    + by rewrite insert_insert_eq.
    + apply same_off_insert.
  - destruct (fs !! posixpath.dirname out) as [[c | ns] |] eqn:D; [done | | done].
    intros _. eexists. split; [done |]. split.
    + by rewrite insert_insert_eq.
    + intros p Hp. split.
      * rewrite stat_insert_ne by done. unfold stat.
        destruct (decide (p = posixpath.dirname out)) as [-> | N].
        -- by rewrite lookup_insert_eq, D.
        -- by rewrite lookup_insert_ne.
      * intros N. by rewrite !lookup_insert_ne.
Qed.

Lemma open_w_raised (fs : FS) (out : string) :
  can_open fs out = false → ∃ e, open_w out fs = (fs, Raised e).
Proof.
  unfold can_open, open_w.
  destruct (fs !! out) as [[c | ns] |]; [done | by eexists |].
  destruct (fs !! posixpath.dirname out) as [[c | ns] |];
    [by eexists | done | by eexists].
Qed.

(** A write stores what the medium accepts and raises when that is not
    all of it. *)
Lemma write_spec (room : option nat) (fs : FS) (out c s : string) :
  fits room (String.length c) = true →
  write room out s (<[out := File c]> fs) =
  (<[out := File (clip room (c +:+ s))]> fs,
   if fits room (String.length (c +:+ s)) then Done tt
   else Raised (OSError out)).
Proof.
  intros Hc. unfold write. destruct room as [r |]; simpl.
  - unfold content_of. rewrite lookup_insert_eq. simpl.
    rewrite !alter_insert_eq, length_append. simpl append_content.
    simpl in Hc. apply Nat.leb_le in Hc.
    destruct (Nat.leb_spec (String.length c + String.length s) r) as [L | L].
    + by rewrite str_take_all by (rewrite length_append; lia).
    + by rewrite str_take_append_ge.
  - by rewrite alter_insert_eq.
Qed.

(** The loop appends to the output file what [copy_all] computes, as far
    as the medium accepts it, and ends as [copy_all] says unless the medium
    refuses a write. *)
Lemma for_each_copy (room : option nat) (fs : FS) (out c : string)
    (paths : list string) :
  Forall (λ p, p ≠ out) paths →
  fits room (String.length c) = true →
  for_each paths (copy_block room out) (<[out := File c]> fs) =
  (<[out := File (clip room (c +:+ (copy_all fs paths).1))]> fs,
   if fits room (String.length (c +:+ (copy_all fs paths).1))
   then ended (copy_all fs paths).2
   else Raised (OSError out)).
Proof.
  intros H. revert c. induction H as [|p paths Hp _ IH]; intros c Hc.
  - simpl. by rewrite append_nil_r, Hc, clip_fits.
  - simpl for_each. unfold bind at 1. unfold copy_block at 1.
    unfold bind at 1. rewrite read_text_spec.
    destruct (stat_is_file fs (<[out := File c]> fs) p
                (stat_insert_ne fs out p _ Hp)) as (-> & _ & ->).
    assert (content_of (<[out := File c]> fs) p = content_of fs p) as ->.
    { unfold content_of. by rewrite lookup_insert_ne. }
    simpl copy_all.
    destruct (is_file fs p); [| by rewrite append_nil_r, Hc, clip_fits].
    simpl. unfold text_block.
    set (t := universal_newlines (default "" (content_of fs p))).
    set (w := (copy_all fs paths).1).
    replace (c +:+ (t +:+ newline) +:+ w)
      with (((c +:+ t) +:+ newline) +:+ w) by by rewrite !append_assoc.
    unfold bind. rewrite write_spec by done.
    destruct (fits room (String.length (c +:+ t))) eqn:F1.
    2: { destruct (clip_append_over room (c +:+ t) newline F1) as [E1 F1'].
         destruct (clip_append_over room _ w F1') as [-> ->].
         by rewrite E1. }
    rewrite (clip_fits room (c +:+ t)) by done.
    rewrite write_spec by done.
    destruct (fits room (String.length ((c +:+ t) +:+ newline))) eqn:F2.
    2: { by destruct (clip_append_over room _ w F2) as [-> ->]. }
    rewrite (clip_fits room ((c +:+ t) +:+ newline)) by done.
    by rewrite IH.
Qed.

End operations.

(** ** What a run does *)

Section run_facts.
Variable pr : process.
Hypothesis literal_root : has_magic (script_dir pr) = false.

Lemma ts_paths_same_off (fs fs' : FS) (folder : string) :
  same_off (output_file pr) fs fs' →
  folder ≠ output_file pr → folder ≠ posixpath.dirname (output_file pr) →
  ts_paths fs' folder = ts_paths fs folder.
Proof.
  intros H Ho Hd. unfold ts_paths.
  by rewrite (listdir_same_off _ _ _ _ H Ho Hd).
Qed.

Lemma copy_all_same_off (fs fs' fs'' : FS) (folder : string) :
  same_off (output_file pr) fs fs' →
  copy_all fs' (ts_paths fs'' folder) = copy_all fs (ts_paths fs'' folder).
Proof.
  intros H. apply copy_all_ext.
  eapply Forall_impl; [apply (ts_paths_not_output pr) |].
  intros p Hp. apply (H p Hp).
Qed.

Lemma glob_source (fs : FS) :
  glob fs (posixpath.join (source_folder pr) "*.ts")
  = Some (ts_paths fs (source_folder pr)).
Proof.
  destruct (source_folder_literal pr) as (? & ? & Hm).
  apply glob_ts; [done.. |]. by rewrite Hm.
Qed.

Lemma glob_test (fs : FS) :
  glob fs (posixpath.join (test_folder pr) "*.ts")
  = Some (ts_paths fs (test_folder pr)).
Proof.
  destruct (test_folder_literal pr) as (? & ? & Hm).
  apply glob_ts; [done.. |]. by rewrite Hm.
Qed.

(** Once the output file is open, the run is the two loops: the file ends
    up with what they wrote, as far as the medium accepted it, and
    everything else as the opening left it. *)
Lemma run_in_opened (room : option nat) (fs fs1 : FS) :
  open_w (output_file pr) fs = (fs1, Done (output_file pr)) →
  <[output_file pr := File ""]> fs1 = fs1 →
  same_off (output_file pr) fs fs1 →
  run_in room pr fs =
  let s := copy_all fs (ts_paths fs (source_folder pr)) in
  let t := copy_all fs (ts_paths fs (test_folder pr)) in
  if negb (fits room (String.length s.1))
  then (<[output_file pr := File (clip room s.1)]> fs1,
        Raised (OSError (output_file pr)))
  else
    match s.2 with
    | Some e => (<[output_file pr := File s.1]> fs1, Raised e)
    | None =>
        (<[output_file pr := File (clip room (s.1 +:+ t.1))]> fs1,
         if fits room (String.length (s.1 +:+ t.1)) then ended t.2
         else Raised (OSError (output_file pr)))
    end.
Proof.
  intros Hopen Hfix Hsame.
  destruct (output_file_not_folder pr) as [Hos Hot].
  destruct (output_dir_not_folder pr) as (Hds & Hdt & _).
  assert (fits room (String.length "") = true) as Hnil by by destruct room.
  unfold run_in, concatenate_lib_classes.
  unfold bind at 1. rewrite Hopen.
  unfold bind at 1. unfold glob_glob at 1. rewrite glob_source.
  rewrite (ts_paths_same_off fs fs1) by done.
  unfold bind at 1.
  pose proof (for_each_copy room fs1 (output_file pr) ""
                (ts_paths fs (source_folder pr))
                (ts_paths_not_output pr fs _) Hnil) as L1.
  rewrite Hfix in L1. rewrite L1. clear L1.
  rewrite (copy_all_same_off fs fs1) by done.
  change ("" +:+ ?x) with x. cbv zeta.
  destruct (copy_all fs (ts_paths fs (source_folder pr))) as [w1 e1].
  simpl fst. simpl snd.
  destruct (fits room (String.length w1)) eqn:F1; simpl; [| done].
  rewrite (clip_fits room w1) by done.
  destruct e1 as [e1 |]; simpl; [done |].
  unfold bind at 1. unfold open_a at 1. rewrite lookup_insert_eq.
  unfold bind at 1. unfold glob_glob at 1. rewrite glob_test.
  rewrite (ts_paths_same_off fs (<[output_file pr := File w1]> fs1)); [| | done..].
  2: { eapply same_off_trans; [done | apply same_off_insert]. }
  rewrite for_each_copy by (done || apply ts_paths_not_output).
  by rewrite (copy_all_same_off fs fs1).
Qed.

Lemma run_opened (fs fs1 : FS) :
  open_w (output_file pr) fs = (fs1, Done (output_file pr)) →
  <[output_file pr := File ""]> fs1 = fs1 →
  same_off (output_file pr) fs fs1 →
  run pr fs =
  let s := copy_all fs (ts_paths fs (source_folder pr)) in
  let t := copy_all fs (ts_paths fs (test_folder pr)) in
  match s.2 with
  | Some e => (<[output_file pr := File s.1]> fs1, Raised e)
  | None => (<[output_file pr := File (s.1 +:+ t.1)]> fs1, ended t.2)
  end.
Proof. intros Hopen Hfix Hsame. exact (run_in_opened None fs fs1 Hopen Hfix Hsame). Qed.

(** A run that cannot open the output file changes nothing. *)
Lemma run_in_not_opened (room : option nat) (fs : FS) :
  can_open fs (output_file pr) = false →
  ∃ e, open_w (output_file pr) fs = (fs, Raised e) ∧
       run_in room pr fs = (fs, Raised e).
Proof.
  intros [e He]%open_w_raised. exists e. split; [done |].
  unfold run_in, concatenate_lib_classes, bind. by rewrite He.
Qed.

Lemma run_not_opened (fs : FS) :
  can_open fs (output_file pr) = false →
  ∃ e, run pr fs = (fs, Raised e).
Proof.
  intros (e & _ & He)%(run_in_not_opened None). by exists e.
Qed.

End run_facts.

(** ** The text the loops write *)

Section written.

Lemma flatten_app (a b : list string) :
  flatten (a ++ b) = flatten a +:+ flatten b.
Proof.
  induction a as [|x a IH]; simpl; [done |]. by rewrite IH, append_assoc.
Qed.

(** Two loops in a row are one loop over both lists, the second being
    skipped when the first is stopped. *)
Lemma copy_all_app (fs : FS) (a b : list string) :
  copy_all fs (a ++ b) =
  match (copy_all fs a).2 with
  | Some e => copy_all fs a
  | None => ((copy_all fs a).1 +:+ (copy_all fs b).1, (copy_all fs b).2)
  end.
Proof.
  induction a as [|p a IH]; simpl.
  - by destruct (copy_all fs b).
  - destruct (is_file fs p); simpl; [| done]. rewrite IH.
    destruct (copy_all fs a) as [w [e |]]; simpl; [done |].
    by rewrite append_assoc.
Qed.

Lemma copy_all_files (fs : FS) (paths : list string) :
  Forall (λ p, is_file fs p = true) paths →
  copy_all fs paths = (flatten (map (text_block fs) paths), None).
Proof.
  induction 1 as [|p paths Hp _ IH]; simpl; [done |]. by rewrite Hp, IH.
Qed.

Lemma copy_all_stops (fs : FS) (before after : list string) (bad : string) :
  Forall (λ p, is_file fs p = true) before → is_file fs bad = false →
  copy_all fs (before ++ bad :: after) =
  (flatten (map (text_block fs) before), Some (open_error fs bad)).
Proof.
  intros Hb Hbad. rewrite copy_all_app, (copy_all_files _ _ Hb). simpl.
  by rewrite Hbad, append_nil_r.
Qed.

Lemma copy_all_none (fs : FS) (paths : list string) :
  (copy_all fs paths).2 = None ↔ Forall (λ p, is_file fs p = true) paths.
Proof.
  split; [| intros H; by rewrite copy_all_files].
  induction paths as [|p paths IH]; [done |]. simpl.
  destruct (is_file fs p) eqn:E; [| done]. simpl. intros H.
  constructor; [done | by apply IH].
Qed.

(** Text without carriage return is read as it is. *)
Lemma universal_newlines_id (s : string) :
  contains CR s = false → universal_newlines s = s.
Proof.
  induction s as [|c s IH]; [done |]. simpl.
  intros [-> Hs]%orb_false_iff. by rewrite IH.
Qed.

End written.

Section run_result.
Variable pr : process.
Hypothesis literal_root : has_magic (script_dir pr) = false.

(** A run that opens the output file: how it ends, what the file holds,
    and what else it leaves as it was. *)
Lemma run_result (fs : FS) :
  can_open fs (output_file pr) = true →
  let c := copy_all fs (ts_paths fs (source_folder pr)
                        ++ ts_paths fs (test_folder pr)) in
  (run pr fs).2 = ended c.2 ∧
  content_of (run pr fs).1 (output_file pr) = Some c.1 ∧
  same_off (output_file pr) fs (run pr fs).1.
Proof.
  intros (fs1 & Hopen & Hfix & Hsame)%open_w_done.
  rewrite (run_opened pr literal_root fs fs1 Hopen Hfix Hsame).
  cbv zeta. rewrite copy_all_app.
  destruct (copy_all fs (ts_paths fs (source_folder pr))) as [w1 [e1 |]];
    simpl; unfold content_of; rewrite lookup_insert_eq.
  all: split; [done |]; split; [done |].
  all: eapply same_off_trans; [done | apply same_off_insert].
Qed.

(** The same on a medium with limited room: the file holds what the
    medium accepted, and a refused write is how the run ends. *)
Lemma run_in_result (room : option nat) (fs : FS) :
  can_open fs (output_file pr) = true →
  let c := copy_all fs (ts_paths fs (source_folder pr)
                        ++ ts_paths fs (test_folder pr)) in
  (run_in room pr fs).2 =
  (if fits room (String.length c.1) then ended c.2
   else Raised (OSError (output_file pr))) ∧
  content_of (run_in room pr fs).1 (output_file pr) = Some (clip room c.1) ∧
  same_off (output_file pr) fs (run_in room pr fs).1.
Proof.
  intros (fs1 & Hopen & Hfix & Hsame)%open_w_done.
  rewrite (run_in_opened pr literal_root room fs fs1 Hopen Hfix Hsame).
  cbv zeta. rewrite copy_all_app.
  assert (∀ w, same_off (output_file pr) fs (<[output_file pr := File w]> fs1))
    as Hoff.
  { intros w. eapply same_off_trans; [done | apply same_off_insert]. }
  destruct (copy_all fs (ts_paths fs (source_folder pr))) as [w1 e1].
  simpl fst. simpl snd.
  destruct (fits room (String.length w1)) eqn:F1; simpl negb; cbv iota.
  - destruct e1 as [e1 |]; simpl; rewrite ?F1;
      unfold content_of; rewrite lookup_insert_eq; [| done].
    by rewrite clip_fits.
  - destruct e1 as [e1 |]; simpl.
    + rewrite F1. unfold content_of. by rewrite lookup_insert_eq.
    + destruct (clip_append_over room w1
                  (copy_all fs (ts_paths fs (test_folder pr))).1 F1)
        as [-> ->].
      unfold content_of. by rewrite lookup_insert_eq.
Qed.

(** When a run ends normally. *)
Lemma run_in_done (room : option nat) (fs : FS) :
  (run_in room pr fs).2 = Done tt ↔
  can_open fs (output_file pr) = true ∧
  Forall (λ p, is_file fs p = true) (ts_paths fs (source_folder pr)) ∧
  Forall (λ p, is_file fs p = true) (ts_paths fs (test_folder pr)) ∧
  fits room
    (String.length
       (flatten (map (text_block fs) (ts_paths fs (source_folder pr)))
        +:+ flatten (map (text_block fs) (ts_paths fs (test_folder pr)))))
  = true.
Proof.
  rewrite <- flatten_app, <- map_app.
  destruct (can_open fs (output_file pr)) eqn:Hopen.
  - destruct (run_in_result room fs Hopen) as (-> & _ & _). split.
    + destruct (fits room _) eqn:F; [| done]. intros He.
      assert ((copy_all fs (ts_paths fs (source_folder pr)
                            ++ ts_paths fs (test_folder pr))).2 = None)
        as Hnone by (by destruct (copy_all fs _).2).
      apply copy_all_none in Hnone.
      rewrite (copy_all_files _ _ Hnone) in F.
      by apply Forall_app in Hnone as [? ?].
    + intros (_ & Hs & Ht & F).
      rewrite copy_all_files by by apply Forall_app.
      simpl. by rewrite F.
  - destruct (run_in_not_opened pr room fs Hopen) as (e & _ & ->).
    split; [done | by intros (? & _)].
Qed.

Lemma run_in_done_content (room : option nat) (fs : FS) :
  (run_in room pr fs).2 = Done tt →
  content_of (run_in room pr fs).1 (output_file pr) =
  Some (flatten (map (text_block fs) (ts_paths fs (source_folder pr)))
        +:+ flatten (map (text_block fs) (ts_paths fs (test_folder pr)))).
Proof.
  intros Hdone. pose proof Hdone as (Hopen & Hs & Ht & F)%run_in_done.
  destruct (run_in_result room fs Hopen) as (_ & -> & _).
  rewrite copy_all_files by by apply Forall_app.
  simpl. rewrite map_app, flatten_app. by rewrite clip_fits.
Qed.

End run_result.

(** ** The content of [classes.txt] *)

Section content.
Variable pr : process.
Hypothesis literal_root : has_magic (script_dir pr) = false.



End content.




(** ** Missing and empty folders *)









(** ** Runs that are stopped by an exception *)




(** Appending mode keeps what the file holds. *)
Lemma open_a_keeps (fs : FS) (path content : string) :
  fs !! path = Some (File content) → open_a path fs = (fs, Done path).
Proof. intros H. unfold open_a. by rewrite H. Qed.

(** C8: the second [open], in appending mode, leaves an existing file as it
    is; so once the loop over [src/] has completed (its selected entries
    are regular files), whatever happens in the loop over [tests/],
    [classes.txt] starts with the complete concatenation of [src/], and when
    an entry of [tests/] cannot be read it holds, after that, the blocks of
    the test entries before the failing one. *)
Theorem source_blocks_survive (pr : process) (fs : FS) :
  has_magic (script_dir pr) = false →
  can_open fs (output_file pr) = true →
  Forall (λ p, is_file fs p = true) (ts_paths fs (source_folder pr)) →
  (∀ fs' content, fs' !! output_file pr = Some (File content) →
     open_a (output_file pr) fs' = (fs', Done (output_file pr))) ∧
  (∃ rest,
     content_of (run pr fs).1 (output_file pr)
     = Some (flatten (map (text_block fs) (ts_paths fs (source_folder pr)))
             +:+ rest)) ∧
  (∀ before bad after,
     ts_paths fs (test_folder pr) = (before ++ bad :: after)%list →
     Forall (λ p, is_file fs p = true) before →
     is_file fs bad = false →
     (run pr fs).2 = Raised (open_error fs bad) ∧
     content_of (run pr fs).1 (output_file pr)
     = Some (flatten (map (text_block fs) (ts_paths fs (source_folder pr)))
             +:+ flatten (map (text_block fs) before))).
Proof.
  intros Hroot Hopen Hsrc.
  destruct (run_result pr Hroot fs Hopen) as (Hend & Hout & _).
  rewrite copy_all_app, (copy_all_files _ _ Hsrc) in Hend, Hout.
  simpl in Hend, Hout.
  split; [intros fs' content; apply open_a_keeps |]. split.
  - by eexists.
  - intros before bad after E Hbefore Hbad.
    rewrite E, (copy_all_stops _ _ _ _ Hbefore Hbad) in Hend, Hout.
    done.
Qed.

Lemma source_blocks_survive_witness :
  (run proc0 fs_broken_tests).2
  = Raised (FileNotFoundError "/repo/tests/gone.ts") ∧
  content_of (run proc0 fs_broken_tests).1 (output_file proc0)
  = Some ("A" +:+ newline +:+ "Z" +:+ newline +:+ "T" +:+ newline).
Proof.
  destruct (source_blocks_survive proc0 fs_broken_tests) as (_ & _ & H);
    [reflexivity | reflexivity | vm_compute; repeat constructor |].
  apply (H ["/repo/tests/t.ts"] "/repo/tests/gone.ts" ["/repo/tests/u.ts"]);
    [reflexivity | vm_compute; repeat constructor | reflexivity].
Defined.

(** ** Runs in a row, and what a run leaves alone *)

Lemma bind_open_w {B} (k : string → M B) (fs : FS) (out content : string) :
  bind (open_w out) k (<[out := File content]> fs)
  = k out (<[out := File ""]> fs).
Proof.
  unfold bind, open_w. by rewrite lookup_insert_eq, insert_insert_eq.
Qed.

(** What the output file held before the run does not matter. *)
Lemma run_forgets (pr : process) (fs : FS) (c c' : string) :
  run pr (<[output_file pr := File c]> fs)
  = run pr (<[output_file pr := File c']> fs).
Proof. unfold run, run_in, concatenate_lib_classes. by rewrite !bind_open_w. Qed.

(** A created file is listed in its directory; nothing else is. *)
Lemma open_w_listing (fs fs1 : FS) (out : string) (names' : list string) :
  posixpath.dirname out ≠ out →
  open_w out fs = (fs1, Done out) →
  fs1 !! posixpath.dirname out = Some (Dir names') →
  ∃ names, fs !! posixpath.dirname out = Some (Dir names) ∧
           (names' = names ∨ names' = (names ++ [posixpath.basename out])%list).
Proof.
  intros Hne. unfold open_w.
  destruct (fs !! out) as [[c | ns] |] eqn:E; [| done |].
  - intros [= <-]. rewrite lookup_insert_ne by done. eauto.
  - destruct (fs !! posixpath.dirname out) as [[c | ns] |] eqn:D; [done | | done].
    intros [= <-]. rewrite lookup_insert_ne, lookup_insert_eq by done.
    intros [= <-]. eauto.
Qed.

Section frame.
Variable pr : process.
Hypothesis literal_root : has_magic (script_dir pr) = false.

Lemma run_state (fs : FS) :
  can_open fs (output_file pr) = true →
  ∃ fs1 w, open_w (output_file pr) fs = (fs1, Done (output_file pr)) ∧
           <[output_file pr := File ""]> fs1 = fs1 ∧
           same_off (output_file pr) fs fs1 ∧
           (run pr fs).1 = <[output_file pr := File w]> fs1.
Proof.
  intros (fs1 & Hopen & Hfix & Hsame)%open_w_done.
  exists fs1. rewrite (run_opened pr literal_root fs fs1 Hopen Hfix Hsame).
  cbv zeta.
  destruct (copy_all fs (ts_paths fs (source_folder pr))) as [w1 [e1 |]];
    simpl; eauto.
Qed.

Lemma run_same_off (fs : FS) : same_off (output_file pr) fs (run pr fs).1.
Proof.
  destruct (can_open fs (output_file pr)) eqn:Hopen.
  - by destruct (run_result pr literal_root fs Hopen) as (_ & _ & ?).
  - destruct (run_not_opened pr fs Hopen) as [e ->]. apply same_off_refl.
Qed.

Lemma run_listing (fs : FS) (names' : list string) :
  (run pr fs).1 !! posixpath.dirname (output_file pr) = Some (Dir names') →
  ∃ names,
    fs !! posixpath.dirname (output_file pr) = Some (Dir names) ∧
    (names' = names ∨
     names' = (names ++ [posixpath.basename (output_file pr)])%list).
Proof.
  destruct (output_dir_not_folder pr) as (_ & _ & Hne).
  destruct (can_open fs (output_file pr)) eqn:Hopen.
  - destruct (run_state fs Hopen) as (fs1 & w & Ho & _ & _ & ->).
    rewrite lookup_insert_ne by done. by apply open_w_listing.
  - destruct (run_not_opened pr fs Hopen) as [e ->]. eauto.
Qed.

(** The state a run leaves is one it reproduces. *)
Lemma run_twice (fs : FS) : run pr (run pr fs).1 = run pr fs.
Proof.
  destruct (can_open fs (output_file pr)) eqn:Hopen.
  - destruct (run_state fs Hopen) as (fs1 & w & Ho & Hfix & Hsame & ->).
    rewrite (run_forgets pr fs1 w ""), Hfix.
    assert (open_w (output_file pr) fs1 = (fs1, Done (output_file pr))) as Ho1.
    { unfold open_w. rewrite <- Hfix at 1. rewrite lookup_insert_eq.
      by rewrite Hfix. }
    rewrite (run_opened pr literal_root fs1 fs1 Ho1 Hfix (same_off_refl _ _)).
    rewrite (run_opened pr literal_root fs fs1 Ho Hfix Hsame).
    destruct (output_file_not_folder pr) as [Hos Hot].
    destruct (output_dir_not_folder pr) as (Hds & Hdt & _).
    rewrite !(ts_paths_same_off pr fs fs1) by done.
    by rewrite !(copy_all_same_off pr fs fs1).
  - destruct (run_not_opened pr fs Hopen) as [e He].
    rewrite He. simpl. by rewrite He.
Qed.

End frame.

(** C3: a second run on the file system the first run left ends as the
    first did and leaves the very same file system, hence a [classes.txt]
    with the same content; the second run visits the same paths as the
    first, none of which is the output file. *)
Theorem second_run_reproduces (pr : process) (fs : FS) :
  has_magic (script_dir pr) = false →
  let fs1 := (run pr fs).1 in
  let fs2 := (run pr fs1).1 in
  (run pr fs1).2 = (run pr fs).2 ∧
  fs2 = fs1 ∧
  content_of fs2 (output_file pr) = content_of fs1 (output_file pr) ∧
  ts_paths fs1 (source_folder pr) = ts_paths fs (source_folder pr) ∧
  ts_paths fs1 (test_folder pr) = ts_paths fs (test_folder pr) ∧
  Forall (λ p, p ≠ output_file pr)
    (ts_paths fs1 (source_folder pr) ++ ts_paths fs1 (test_folder pr)).
Proof.
  intros Hroot fs1 fs2. subst fs2 fs1.
  rewrite (run_twice pr Hroot fs).
  destruct (output_file_not_folder pr) as [Hos Hot].
  destruct (output_dir_not_folder pr) as (Hds & Hdt & _).
  pose proof (run_same_off pr Hroot fs) as Hsame.
  repeat split; [by apply (ts_paths_same_off pr fs).. |].
  apply Forall_app; split; apply ts_paths_not_output.
Qed.

Lemma second_run_reproduces_witness :
  (run proc0 (run proc0 fs0).1).1 = (run proc0 fs0).1.
Proof.
  destruct (second_run_reproduces proc0 fs0) as (_ & H & _);
    [reflexivity | exact H].
Defined.

(** C5: a run changes the file system at the output path only: every other
    path keeps its kind and content, every directory its listing, except
    that the directory of the output file lists it once it is created.
    When the output file can be opened it ends up holding exactly what the
    loops of this run wrote: whatever it held before is gone. *)
Theorem only_the_output_file_changes (pr : process) (fs : FS) :
  has_magic (script_dir pr) = false →
  same_off (output_file pr) fs (run pr fs).1 ∧
  (∀ names',
     (run pr fs).1 !! posixpath.dirname (output_file pr) = Some (Dir names') →
     ∃ names,
       fs !! posixpath.dirname (output_file pr) = Some (Dir names) ∧
       (names' = names ∨
        names' = (names ++ [posixpath.basename (output_file pr)])%list)) ∧
  (can_open fs (output_file pr) = true →
   content_of (run pr fs).1 (output_file pr)
   = Some (copy_all fs (ts_paths fs (source_folder pr)
                        ++ ts_paths fs (test_folder pr))).1) ∧
  (∀ old old',
     run pr (<[output_file pr := File old]> fs)
     = run pr (<[output_file pr := File old']> fs)).
Proof.
  intros Hroot. split; [by apply run_same_off |].
  split; [intros names'; by apply run_listing |].
  split; [| apply run_forgets].
  intros Hopen. by destruct (run_result pr Hroot fs Hopen) as (_ & ? & _).
Qed.

Lemma only_the_output_file_changes_witness :
  same_off (output_file proc0) fs_no_match (run proc0 fs_no_match).1 ∧
  content_of (run proc0 fs_no_match).1 (output_file proc0)
  = Some ("T" +:+ newline +:+ "U" +:+ newline).
Proof.
  destruct (only_the_output_file_changes proc0 fs_no_match) as (H1 & _ & H2 & _);
    [reflexivity |].
  split; [exact H1 | exact (H2 eq_refl)].
Defined.

(** ** Which names are selected *)

(** C9: in [src/] and in [tests/] the paths [glob.glob] returns are the
    names [glob._glob1] selects, joined to the folder, and no name that
    starts with a dot is selected, even one that ends with [.ts] such as
    [.hidden.ts]; what a run writes to [classes.txt] is made of the files
    with the selected names only. *)
Theorem hidden_names_are_skipped (pr : process) (fs : FS)
    (folder name : string) :
  has_magic (script_dir pr) = false →
  folder = source_folder pr ∨ folder = test_folder pr →
  ishidden name = true →
  glob fs (posixpath.join folder "*.ts")
  = Some (map (posixpath.join folder) (glob1 fs folder "*.ts")) ∧
  (name ∉ glob1 fs folder "*.ts") ∧
  (can_open fs (output_file pr) = true →
   content_of (run pr fs).1 (output_file pr)
   = Some (copy_all fs
             (map (posixpath.join (source_folder pr))
                (glob1 fs (source_folder pr) "*.ts")
              ++ map (posixpath.join (test_folder pr))
                   (glob1 fs (test_folder pr) "*.ts"))).1) ∧
  ishidden ".hidden.ts" = true ∧ endswith ".hidden.ts" ".ts" = true.
Proof.
  intros Hroot Hfolder Hname. split.
  - rewrite glob1_ts.
    destruct Hfolder as [-> | ->]; [by apply glob_source | by apply glob_test].
  - split; [| split; [| done]].
    + rewrite glob1_ts. unfold matching_ts.
      intros [_ H]%list_elem_of_In%List.filter_In. by rewrite Hname in H.
    + intros Hopen. rewrite !glob1_ts.
      by destruct (run_result pr Hroot fs Hopen) as (_ & ? & _).
Qed.

Lemma hidden_names_are_skipped_witness :
  ".hidden.ts" ∈ listdir fs0 (source_folder proc0) ∧
  ".hidden.ts" ∉ glob1 fs0 (source_folder proc0) "*.ts".
Proof.
  split; [vm_compute; repeat constructor |].
  destruct (hidden_names_are_skipped proc0 fs0 (source_folder proc0)
              ".hidden.ts") as (_ & H & _);
    [reflexivity | by left | reflexivity | exact H].
Defined.

Lemma glob_ts_magic (fs : FS) (folder : string) :
  folder ≠ "" → posixpath.endswith_sep folder = false →
  has_magic folder = true →
  glob fs (posixpath.join folder "*.ts") = None.
Proof.
  intros Hne Hend Hmagic.
  assert (posixpath.join folder "*.ts" = folder +:+ String posixpath.sep "*.ts")
    as ->.
  { unfold posixpath.join. rewrite Hend.
    apply String.eqb_neq in Hne. by rewrite Hne. }
  unfold glob. rewrite posixpath_facts.split_append_sep by done.
  rewrite has_magic_append, Hmagic. simpl. by rewrite orb_true_r.
Qed.

(** C10: whatever the file system, the output file is not among the paths
    [glob.glob] returns for [src/] or [tests/]: each of them ends with
    [.ts] while the output file ends with [.txt], and the output file lies
    in neither folder. *)
Theorem output_is_never_an_input (pr : process) (fs : FS)
    (folder : string) (paths : list string) :
  folder = source_folder pr ∨ folder = test_folder pr →
  glob fs (posixpath.join folder "*.ts") = Some paths →
  (output_file pr ∉ paths) ∧
  Forall (λ p, endswith p ".ts" = true) paths ∧
  endswith (output_file pr) ".txt" = true ∧
  endswith (output_file pr) ".ts" = false ∧
  posixpath.dirname (output_file pr) ≠ folder.
Proof.
  intros Hfolder Hglob.
  assert (paths = ts_paths fs folder) as ->.
  { assert (folder ≠ "" ∧ posixpath.endswith_sep folder = false) as [Hne Hend].
    { destruct Hfolder as [-> | ->];
        [by destruct (source_folder_literal pr) as (? & ? & _)
        | by destruct (test_folder_literal pr) as (? & ? & _)]. }
    destruct (has_magic folder) eqn:Hmagic.
    - by rewrite glob_ts_magic in Hglob.
    - rewrite glob_ts in Hglob by done. by injection Hglob. }
  pose proof (ts_paths_not_output pr fs folder) as Hnot.
  split; [intros Hin; by apply (proj1 (Forall_forall _ _) Hnot _ Hin) |].
  split; [apply Forall_forall; intros p; apply endswith_ts_paths |].
  split; [apply endswith_output_file |]. split.
  - destruct (endswith (output_file pr) ".ts") eqn:E; [| done].
    exfalso.
    apply (endswith_differ (output_file pr) (output_file pr) ".ts" "txt");
      [done | | done..].
    by apply (endswith_trans _ ".txt"); [apply endswith_output_file |].
  - destruct (output_dir_not_folder pr) as (Hds & Hdt & _).
    by destruct Hfolder as [-> | ->].
Qed.

Lemma output_is_never_an_input_witness :
  glob (run proc0 fs0).1 (posixpath.join (source_folder proc0) "*.ts")
  = Some ["/repo/src/b.ts"; "/repo/src/a.ts"] ∧
  output_file proc0 ∉ ["/repo/src/b.ts"; "/repo/src/a.ts"].
Proof.
  split; [reflexivity |].
  destruct (output_is_never_an_input proc0 (run proc0 fs0).1
              (source_folder proc0) ["/repo/src/b.ts"; "/repo/src/a.ts"])
    as (H & _); [by left | reflexivity | exact H].
Defined.

(** ** Where the script finds its paths *)

Section normal_paths.
Import posixpath posixpath_facts.

Lemma is_name_spec (n : string) :
  is_name n = true →
  n ≠ "" ∧ String.eqb n "" || String.eqb n "." = false ∧
  String.eqb n ".." = false ∧ contains sep n = false.
Proof.
  unfold is_name. rewrite !andb_true_iff, !negb_true_iff.
  intros [[[H1 H2] H3] H4].
  split; [by apply String.eqb_neq |]. by rewrite H1, H2.
Qed.

Lemma abs_path_cons (c : string) (cs : list string) :
  abs_path (c :: cs) = String sep (c +:+ abs_path cs).
Proof. reflexivity. Qed.

Lemma abs_path_app (a b : list string) :
  abs_path (a ++ b) = abs_path a +:+ abs_path b.
Proof. unfold abs_path. by rewrite map_app, flatten_app. Qed.

Lemma abs_path_snoc (cs : list string) (n : string) :
  abs_path (cs ++ [n]) = abs_path cs +:+ String sep n.
Proof.
  rewrite abs_path_app. f_equal. unfold abs_path. simpl.
  by rewrite append_nil_r.
Qed.

Lemma str_split_cons (s : string) : ∃ h t, str_split s = h :: t.
Proof.
  induction s as [|x s (h & t & IH)]; [by eexists _, _ |].
  unfold str_split; fold str_split. rewrite IH.
  destruct (Ascii.eqb x sep); by eexists _, _.
Qed.

Lemma str_split_append (c s h : string) (t : list string) :
  contains sep c = false → str_split s = h :: t →
  str_split (c +:+ s) = (c +:+ h) :: t.
Proof.
  intros H Hs. induction c as [|x c IH]; [done |].
  simpl in H. apply orb_false_iff in H as [Hx Hc].
  change (String x c +:+ s) with (String x (c +:+ s)).
  unfold str_split; fold str_split. by rewrite Hx, (IH Hc).
Qed.

Lemma str_split_abs_path (cs : list string) :
  Forall (λ n, is_name n = true) cs → str_split (abs_path cs) = "" :: cs.
Proof.
  induction 1 as [|c cs Hc _ IH]; [done |].
  rewrite abs_path_cons. unfold str_split; fold str_split.
  rewrite Ascii.eqb_refl. f_equal.
  destruct (is_name_spec c Hc) as (_ & _ & _ & Hsep).
  by rewrite (str_split_append _ _ _ _ Hsep IH), append_nil_r.
Qed.

Lemma endswith_sep_name (n : string) :
  is_name n = true → endswith_sep n = false.
Proof.
  intros (_ & _ & _ & Hsep)%is_name_spec.
  destruct (endswith_sep n) eqn:E; [| done].
  apply endswith_sep_contains in E. congruence.
Qed.

Lemma abs_path_snoc_literal (cs : list string) (n : string) :
  is_name n = true →
  abs_path (cs ++ [n]) ≠ "" ∧ endswith_sep (abs_path (cs ++ [n])) = false.
Proof.
  intros Hn. rewrite abs_path_snoc. split; [by destruct (abs_path cs) |].
  rewrite endswith_sep_append by done.
  destruct (is_name_spec n Hn) as (Hne & _).
  rewrite endswith_sep_cons by done. by apply endswith_sep_name.
Qed.

End normal_paths.

Section location.
Import posixpath posixpath_facts.

Lemma str_split_sep_free (s : string) :
  Forall (λ c, contains sep c = false) (str_split s).
Proof.
  induction s as [|x s IH]; [by repeat constructor |].
  unfold str_split; fold str_split.
  destruct (Ascii.eqb x sep) eqn:E; [by constructor |].
  destruct (str_split s) as [|h t]; [by repeat constructor; simpl; rewrite E |].
  inversion IH; subst. constructor; [| done]. simpl. by rewrite E.
Qed.

Lemma str_split_append_sep (a b : string) :
  str_split (a +:+ String sep b) = (str_split a ++ str_split b)%list.
Proof.
  induction a as [|x a IH].
  - change ("" +:+ String sep b) with (String sep b).
    unfold str_split at 1; fold str_split. by rewrite Ascii.eqb_refl.
  - change (String x a +:+ String sep b) with (String x (a +:+ String sep b)).
    unfold str_split at 1 2; fold str_split. rewrite IH.
    destruct (Ascii.eqb x sep); [done |].
    by destruct (str_split_cons a) as (h & t & ->).
Qed.

Lemma is_name_not_dotdot (l : list string) :
  Forall (λ n, is_name n = true) l → last l ≠ Some "..".
Proof.
  intros H E. apply last_Some_elem_of in E.
  apply (proj1 (Forall_forall _ _) H) in E. done.
Qed.

Lemma Forall_removelast {A} (P : A → Prop) (l : list A) :
  Forall P l → Forall P (removelast l).
Proof.
  induction 1 as [|x l Hx Hl IH]; [done |]. simpl.
  destruct l; [done | by constructor].
Qed.

Lemma resolve_step_names (here : list string) (comp : string) :
  Forall (λ n, is_name n = true) here → contains sep comp = false →
  Forall (λ n, is_name n = true) (resolve_step here comp).
Proof.
  intros Hhere Hcomp. unfold resolve_step.
  destruct (String.eqb comp "" || String.eqb comp ".") eqn:E1; [done |].
  destruct (String.eqb comp "..") eqn:E2; [by apply Forall_removelast |].
  apply Forall_app. split; [done |]. constructor; [| done].
  apply orb_false_iff in E1 as [E0 E1]. unfold is_name.
  by rewrite E0, E1, E2, Hcomp.
Qed.

Lemma resolve_names (here comps : list string) :
  Forall (λ n, is_name n = true) here →
  Forall (λ c, contains sep c = false) comps →
  Forall (λ n, is_name n = true) (resolve here comps).
Proof.
  intros Hhere Hcomps. revert here Hhere.
  induction Hcomps as [|c comps Hc _ IH]; intros here Hhere; [done |].
  apply IH. by apply resolve_step_names.
Qed.

(** On an absolute path the loop of [normpath] walks as [resolve] does. *)
Lemma fold_norm_step_resolve (k : nat) (here comps : list string) :
  Forall (λ n, is_name n = true) here →
  Forall (λ c, contains sep c = false) comps →
  fold_left (norm_step (S k)) comps here = resolve here comps.
Proof.
  intros Hhere Hcomps. revert here Hhere.
  induction Hcomps as [|c comps Hc _ IH]; intros here Hhere; [done |].
  simpl. assert (norm_step (S k) here c = resolve_step here c) as ->.
  { unfold norm_step, resolve_step.
    destruct (String.eqb c "" || String.eqb c "."); [done |].
    rewrite (bool_decide_eq_false_2 _ (is_name_not_dotdot here Hhere)).
    by destruct (String.eqb c ".."). }
  apply IH. by apply resolve_step_names.
Qed.

Lemma resolve_names_id (here comps : list string) :
  Forall (λ n, is_name n = true) comps →
  resolve here comps = (here ++ comps)%list.
Proof.
  intros H. revert here. induction H as [|c comps Hc _ IH]; intros here.
  - unfold resolve. simpl. by rewrite app_nil_r.
  - change (resolve here (c :: comps))
      with (resolve (resolve_step here c) comps).
    rewrite IH. unfold resolve_step.
    destruct (is_name_spec c Hc) as (_ & -> & -> & _).
    by rewrite <- app_assoc.
Qed.

Lemma initial_slashes_one (x : ascii) (r : string) :
  Ascii.eqb x sep = false → initial_slashes (String sep (String x r)) = 1.
Proof.
  intros H. unfold initial_slashes. rewrite Ascii.eqb_refl, H.
  by destruct r.
Qed.

Lemma sep_join_snoc (w : list string) (n : string) :
  w ≠ [] → sep_join (w ++ [n]) = sep_join w +:+ String sep n.
Proof.
  induction w as [|c w IH]; [done |]. intros _. destruct w as [|c' w].
  - done.
  - change (sep_join ((c :: c' :: w) ++ [n]))
      with (c +:+ String sep (sep_join ((c' :: w) ++ [n]))).
    rewrite IH by done.
    change (sep_join (c :: c' :: w))
      with (c +:+ String sep (sep_join (c' :: w))).
    by rewrite append_assoc.
Qed.

Lemma all_sep_seps (k : nat) : all_sep (seps k) = true.
Proof. induction k as [|k IH]; [done |]. exact IH. Qed.

Lemma endswith_sep_seps (k : nat) : endswith_sep (seps (S k)) = true.
Proof.
  induction k as [|k IH]; [done |].
  change (seps (S (S k))) with (String sep (seps (S k))).
  by rewrite endswith_sep_cons.
Qed.

Lemma anchored_nil (k : nat) : anchored k [] = seps k.
Proof. unfold anchored. simpl. apply append_nil_r. Qed.

Lemma anchored_snoc (k : nat) (w : list string) (n : string) :
  anchored k (w ++ [n]) =
  match w with
  | [] => seps k +:+ n
  | _ => anchored k w +:+ String sep n
  end.
Proof.
  unfold anchored. destruct w as [|c w]; [done |].
  by rewrite sep_join_snoc, append_assoc.
Qed.

Lemma anchored_literal (k : nat) (w : list string) (n : string) :
  is_name n = true →
  anchored k (w ++ [n]) ≠ "" ∧ endswith_sep (anchored k (w ++ [n])) = false.
Proof.
  intros Hn. destruct (is_name_spec n Hn) as (Hne & _).
  pose proof (endswith_sep_name n Hn) as Hend.
  rewrite anchored_snoc. destruct w as [|c w].
  - split; [| by rewrite endswith_sep_append].
    intros E. apply (f_equal String.length) in E.
    rewrite length_append in E. destruct n; [done | simpl in E; lia].
  - split; [by destruct (anchored k (c :: w)) |].
    rewrite endswith_sep_append by done. by rewrite endswith_sep_cons.
Qed.

(** [dirname] goes to the parent, the root being its own parent. *)
Lemma dirname_anchored (k : nat) (w : list string) :
  Forall (λ n, is_name n = true) w →
  dirname (anchored (S k) w) = anchored (S k) (removelast w).
Proof.
  intros H. destruct w as [|n w _] using rev_ind.
  - simpl removelast. rewrite anchored_nil. unfold dirname, split.
    rewrite <- (append_nil_r (seps (S k))) at 1.
    rewrite cut_append; [| done | right; apply endswith_sep_seps].
    by rewrite all_sep_seps, andb_false_r.
  - apply Forall_app in H as [Hw Hn]. inversion Hn as [|? ? Hn' _]; subst.
    destruct (is_name_spec n Hn') as (_ & _ & _ & Hsep).
    rewrite removelast_last, anchored_snoc. unfold dirname.
    destruct w as [|c w] using rev_ind.
    + rewrite anchored_nil. unfold split.
      rewrite cut_append; [| done | right; apply endswith_sep_seps].
      by rewrite all_sep_seps, andb_false_r.
    + clear IHw. apply Forall_app in Hw as [_ Hc]. inversion Hc; subst.
      destruct (anchored_literal (S k) w c) as [Hne Hend]; [done |].
      destruct (w ++ [c])%list eqn:E; [by destruct w |].
      by rewrite split_append_sep.
Qed.

Lemma join_anchored (k : nat) (ds : list string) (n : string) :
  Forall (λ n, is_name n = true) ds → is_name n = true →
  join (anchored (S k) ds) n = anchored (S k) (ds ++ [n]).
Proof.
  intros Hds Hn. destruct (is_name_spec n Hn) as (Hne & _ & _ & Hsep).
  assert (startswith_sep n = false) as Hstart.
  { destruct n as [|x n]; [done |].
    change (contains sep (String x n))
      with (Ascii.eqb x sep || contains sep n) in Hsep.
    by apply orb_false_iff in Hsep as [? _]. }
  unfold join. rewrite Hstart, anchored_snoc.
  destruct ds as [|c ds _] using rev_ind.
  - by rewrite anchored_nil, endswith_sep_seps, orb_true_r.
  - apply Forall_app in Hds as [_ Hc]. inversion Hc; subst.
    destruct (anchored_literal (S k) ds c) as [Hne' Hend]; [done |].
    rewrite Hend. apply String.eqb_neq in Hne'. rewrite Hne'. simpl.
    by destruct (ds ++ [c])%list eqn:E; [destruct ds |].
Qed.

Lemma initial_slashes_isabs (file : string) :
  isabs file = true → ∃ k, initial_slashes file = S k.
Proof.
  destruct file as [|a file]; [done |]. unfold isabs. simpl. intros Ha.
  destruct file as [|b [|c r]]; unfold initial_slashes; rewrite Ha.
  - by eexists.
  - destruct (Ascii.eqb b sep); by eexists.
  - destruct (Ascii.eqb b sep && negb (Ascii.eqb c sep)); by eexists.
Qed.

(** [normpath] of an absolute path: its initial slashes and where its
    components lead from the root. *)
Lemma normpath_anchored (path : string) :
  isabs path = true →
  normpath path
  = anchored (initial_slashes path) (resolve [] (str_split path)).
Proof.
  intros Habs. destruct (initial_slashes_isabs path Habs) as [k Hk].
  unfold normpath. rewrite Hk.
  destruct path as [|c path]; [done |]. simpl String.eqb. cbv iota.
  rewrite fold_norm_step_resolve by (done || apply str_split_sep_free).
  done.
Qed.

(** The absolute path of the script: where its name leads, from the root
    when it is absolute and from the working directory when it is not. *)
Lemma abspath_anchored (cwd file : string) (cs : list string) :
  isabs file = true ∨ (Forall (λ n, is_name n = true) cs ∧ cwd = root_of cs) →
  abspath cwd file
  = anchored (if isabs file then initial_slashes file else 1)
      (resolve (if isabs file then [] else cs) (str_split file)).
Proof.
  intros H. unfold abspath.
  destruct (isabs file) eqn:Habs; [by apply normpath_anchored |].
  destruct H as [? | [Hcs ->]]; [done |].
  assert (startswith_sep file = false) as Hrel by done.
  destruct cs as [|c cs _] using rev_ind.
  - assert (join (root_of []) file = String sep file) as ->
      by (unfold join; by rewrite Hrel).
    rewrite normpath_anchored by done.
    assert (initial_slashes (String sep file) = 1) as ->
      by (destruct file as [|x file]; [done | by apply initial_slashes_one]).
    unfold str_split at 1; fold str_split. by rewrite Ascii.eqb_refl.
  - pose proof Hcs as Hcs'.
    apply Forall_app in Hcs as [Hcs Hc]. inversion Hc; subst.
    destruct (abs_path_snoc_literal cs c) as [Hne Hend]; [done |].
    assert (root_of (cs ++ [c]) = abs_path (cs ++ [c])) as ->
      by by destruct cs.
    assert (join (abs_path (cs ++ [c])) file
            = abs_path (cs ++ [c]) +:+ String sep file) as ->.
    { unfold join. rewrite Hrel, Hend.
      apply String.eqb_neq in Hne. by rewrite Hne. }
    assert (∃ x r, abs_path (cs ++ [c]) +:+ String sep file
                   = String sep (String x r) ∧ Ascii.eqb x sep = false)
      as (x & r & Eshape & Hx).
    { destruct (cs ++ [c])%list as [|d ds] eqn:E; [by destruct cs |].
      rewrite abs_path_cons. inversion Hcs' as [|? ? Hd0 ?]; subst.
      destruct (is_name_spec d Hd0) as (Hd & _ & _ & Hsep).
      destruct d as [|x d]; [done |].
      exists x, ((d +:+ abs_path ds) +:+ String sep file). split; [done |].
      change (contains sep (String x d))
        with (Ascii.eqb x sep || contains sep d) in Hsep.
      by apply orb_false_iff in Hsep as [? _]. }
    rewrite normpath_anchored by by rewrite Eshape.
    assert (initial_slashes (abs_path (cs ++ [c]) +:+ String sep file) = 1)
      as -> by (rewrite Eshape; by apply initial_slashes_one).
    rewrite str_split_append_sep, str_split_abs_path by done.
    change (resolve [] (("" :: cs ++ [c]) ++ str_split file))
      with (fold_left resolve_step (("" :: cs ++ [c]) ++ str_split file) []).
    rewrite fold_left_app.
    change (fold_left resolve_step ("" :: cs ++ [c]) [])
      with (resolve [] (cs ++ [c])).
    by rewrite resolve_names_id.
Qed.

End location.

(** C4: the root is the directory two levels above the place the script's
    own file name leads to, from the file system root when the name is
    absolute and from the working directory when it is relative, whether
    or not the name is normalised; the three paths are [src], [tests] and
    [classes.txt] in that root.  Nothing else is looked at: a process with
    the same file name and, unless the name is absolute, the same working
    directory uses the same three paths, whatever its arguments and its
    environment. *)
Theorem paths_from_script_location (pr pr' : process) (cs : list string) :
  posixpath.isabs (file pr) = true ∨
  (Forall (λ n, is_name n = true) cs ∧ cwd pr = root_of cs) →
  file pr' = file pr →
  cwd pr' = cwd pr ∨ posixpath.isabs (file pr) = true →
  let slashes :=
    if posixpath.isabs (file pr) then posixpath.initial_slashes (file pr)
    else 1 in
  let location :=
    resolve (if posixpath.isabs (file pr) then [] else cs)
      (posixpath.str_split (file pr)) in
  let root := removelast (removelast location) in
  posixpath.abspath (cwd pr) (file pr) = anchored slashes location ∧
  script_dir pr = anchored slashes root ∧
  (source_folder pr = anchored slashes (root ++ ["src"]) ∧
   test_folder pr = anchored slashes (root ++ ["tests"]) ∧
   output_file pr = anchored slashes (root ++ ["classes.txt"])) ∧
  (source_folder pr' = source_folder pr ∧
   test_folder pr' = test_folder pr ∧
   output_file pr' = output_file pr).
Proof.
  intros Hwhere Hsame Hcwd' slashes location root.
  pose proof (abspath_anchored (cwd pr) (file pr) cs Hwhere) as Habs.
  fold slashes location in Habs.
  assert (∃ k, slashes = S k) as [k Hk].
  { subst slashes. destruct (posixpath.isabs (file pr)) eqn:E; [| by eexists].
    by apply initial_slashes_isabs. }
  assert (Forall (λ n, is_name n = true) location) as Hloc.
  { apply resolve_names; [| apply str_split_sep_free].
    destruct (posixpath.isabs (file pr)); [done |].
    by destruct Hwhere as [? | [? _]]. }
  assert (script_dir pr = anchored slashes root) as Hroot.
  { unfold script_dir. rewrite Habs, Hk.
    rewrite dirname_anchored by done.
    by rewrite dirname_anchored by by apply Forall_removelast. }
  assert (script_dir pr' = script_dir pr) as Hroot'.
  { unfold script_dir. rewrite Hsame. destruct Hcwd' as [-> | Hisabs]; [done |].
    unfold posixpath.abspath. by rewrite Hisabs. }
  assert (Forall (λ n, is_name n = true) root) as Hnames
    by by do 2 apply Forall_removelast.
  split; [done |]. split; [done |].
  unfold source_folder, test_folder, output_file. rewrite Hroot', Hroot, Hk.
  by rewrite !join_anchored.
Qed.

Lemma paths_from_script_location_witness :
  (posixpath.isabs (file proc_relative) = false ∧
   argv proc_relative_args ≠ argv proc_relative ∧
   environ proc_relative_args ≠ environ proc_relative ∧
   (source_folder proc_relative, test_folder proc_relative,
    output_file proc_relative)
   = ("/repo/src", "/repo/tests", "/repo/classes.txt") ∧
   output_file proc_relative_args = output_file proc_relative) ∧
  (cwd proc_dotted_elsewhere ≠ cwd proc_dotted ∧
   (source_folder proc_dotted, test_folder proc_dotted, output_file proc_dotted)
   = ("/repo/src", "/repo/tests", "/repo/classes.txt") ∧
   output_file proc_dotted_elsewhere = output_file proc_dotted).
Proof.
  split.
  - destruct (paths_from_script_location proc_relative proc_relative_args
                ["repo"; "scripts"])
      as (_ & _ & (H1 & H2 & H3) & (_ & _ & H4));
      [right; split; [vm_compute; repeat constructor | reflexivity]
      | reflexivity | by left |].
    split; [reflexivity |]. split; [by vm_compute |]. split; [by vm_compute |].
    split; [by rewrite H1, H2, H3 | exact H4].
  - destruct (paths_from_script_location proc_dotted proc_dotted_elsewhere [])
      as (_ & _ & (H1 & H2 & H3) & (_ & _ & H4));
      [by left | reflexivity | by right |].
    split; [by vm_compute |]. split; [by rewrite H1, H2, H3 | exact H4].
Defined.

(** ** More on the three paths *)

Section path_shape.
Import posixpath posixpath_facts.

Lemma rstrip_sep_nil (p : string) : rstrip_sep p = "" → all_sep p = true.
Proof.
  destruct p as [|c p]; [done |]. unfold rstrip_sep; fold rstrip_sep.
  by destruct (all_sep (String c p)).
Qed.

Lemma endswith_sep_rstrip (p : string) : endswith_sep (rstrip_sep p) = false.
Proof.
  induction p as [|c p IH]; [done |]. unfold rstrip_sep; fold rstrip_sep.
  destruct (all_sep (String c p)) eqn:A; [done |].
  destruct (rstrip_sep p) as [|d q] eqn:R.
  - apply rstrip_sep_nil in R. simpl in A. rewrite R, andb_true_r in A.
    simpl. exact A.
  - by rewrite endswith_sep_cons.
Qed.

(** What [dirname] returns consists of slashes only or does not end with
    one. *)
Lemma dirname_shape (p : string) :
  all_sep (dirname p) = true ∨ endswith_sep (dirname p) = false.
Proof.
  unfold dirname, split. destruct (cut p) as [head tail]. simpl.
  destruct (String.eqb head "") eqn:E.
  - apply String.eqb_eq in E as ->. by left.
  - destruct (all_sep head) eqn:A; simpl; [by left | right].
    apply endswith_sep_rstrip.
Qed.

(** [split] undoes [join] of such a directory and a plain name. *)
Lemma split_join_child (r b : string) :
  all_sep r = true ∨ endswith_sep r = false →
  contains sep b = false →
  split (join r b) = (r, b).
Proof.
  intros Hr Hb.
  assert (startswith_sep b = false) as Hstart.
  { destruct b as [|x b]; [done |]. simpl in Hb.
    by apply orb_false_iff in Hb as [Hx _]. }
  unfold join. rewrite Hstart.
  destruct (String.eqb r "" || endswith_sep r) eqn:E.
  - assert (all_sep r = true) as A.
    { destruct Hr as [? | Hr]; [done |].
      rewrite Hr, orb_false_r in E. by apply String.eqb_eq in E as ->. }
    unfold split. rewrite cut_append; [| done |].
    + by rewrite A, andb_false_r.
    + apply orb_true_iff in E as [->%String.eqb_eq | ?]; auto.
  - apply orb_false_iff in E as [Hne%String.eqb_neq Hend].
    by apply split_append_sep.
Qed.

Lemma startswith_sep_append (a b : string) :
  startswith_sep a = true → startswith_sep (a +:+ b) = true.
Proof. by destruct a. Qed.

Lemma isabs_join (r b : string) : isabs r = true → isabs (join r b) = true.
Proof.
  intros H. unfold isabs, join in *.
  destruct (startswith_sep b) eqn:B; [done |].
  destruct (_ || _); by apply startswith_sep_append.
Qed.

Lemma isabs_dirname (p : string) : isabs p = true → isabs (dirname p) = true.
Proof.
  destruct p as [|c p]; [done |]. unfold isabs. simpl. intros Hc.
  unfold dirname, split. unfold cut; fold cut. rewrite Hc.
  destruct (cut p) as [h t]. simpl. rewrite Hc.
  destruct (all_sep h); simpl; by rewrite Hc.
Qed.

Lemma isabs_normpath (p : string) : isabs p = true → isabs (normpath p) = true.
Proof.
  destruct p as [|c p]; [done |]. unfold isabs. simpl. intros Hc.
  unfold normpath.
  assert (∃ k, initial_slashes (String c p) = S k) as [k ->].
  { destruct p as [|b [|a p]]; unfold initial_slashes; rewrite Hc.
    - by eexists.
    - destruct (Ascii.eqb b sep); by eexists.
    - destruct (Ascii.eqb b sep && negb (Ascii.eqb a sep)); by eexists. }
  by simpl.
Qed.

Lemma isabs_abspath (cwd path : string) :
  isabs cwd = true ∨ isabs path = true → isabs (abspath cwd path) = true.
Proof.
  intros H. unfold abspath. apply isabs_normpath.
  destruct (isabs path) eqn:P; [done |].
  destruct H as [H | ?]; [| done]. by apply isabs_join.
Qed.

End path_shape.

(** X1: whatever the process, the three paths are direct children of the
    root: [split] gives back the root and the names [src], [tests] and
    [classes.txt]. *)
Theorem paths_are_children_of_the_root (pr : process) :
  posixpath.split (source_folder pr) = (script_dir pr, "src") ∧
  posixpath.split (test_folder pr) = (script_dir pr, "tests") ∧
  posixpath.split (output_file pr) = (script_dir pr, "classes.txt").
Proof.
  unfold source_folder, test_folder, output_file.
  pose proof (dirname_shape
                (posixpath.dirname (posixpath.abspath (cwd pr) (file pr))))
    as Hshape.
  fold (script_dir pr) in Hshape.
  by rewrite !split_join_child.
Qed.

(** X2: when the working directory is absolute, as [os.getcwd()] is, the
    root and the three paths are absolute, however the script was named on
    the command line. *)
Theorem paths_are_absolute (pr : process) :
  posixpath.isabs (cwd pr) = true →
  posixpath.isabs (script_dir pr) = true ∧
  posixpath.isabs (source_folder pr) = true ∧
  posixpath.isabs (test_folder pr) = true ∧
  posixpath.isabs (output_file pr) = true.
Proof.
  intros Hcwd.
  assert (posixpath.isabs (script_dir pr) = true) as Hroot.
  { unfold script_dir. do 2 apply isabs_dirname. apply isabs_abspath. by left. }
  unfold source_folder, test_folder, output_file.
  by rewrite !isabs_join.
Qed.

Lemma paths_are_absolute_witness :
  posixpath.isabs (file proc_relative) = false ∧
  output_file proc_relative = "/repo/classes.txt" ∧
  posixpath.isabs (output_file proc_relative) = true.
Proof.
  split; [reflexivity |]. split; [reflexivity |].
  by destruct (paths_are_absolute proc_relative) as (_ & _ & _ & H).
Defined.

(** ** When the output file cannot be opened *)

Lemma dirname_output_file (pr : process) :
  posixpath.dirname (output_file pr) = script_dir pr.
Proof.
  unfold posixpath.dirname, output_file.
  rewrite split_join_child; [done | | done].
  apply (dirname_shape
           (posixpath.dirname (posixpath.abspath (cwd pr) (file pr)))).
Qed.

(** X3: when [classes.txt] cannot be opened for writing the run stops at
    once with the exception of that [open] and the file system is left as
    it was: [IsADirectoryError] when the path is a directory, and, when the
    path is free, [NotADirectoryError] when the root is a regular file and
    [FileNotFoundError] when the root does not exist. *)
Theorem unopenable_output_changes_nothing (pr : process) (fs : FS) :
  can_open fs (output_file pr) = false →
  (run pr fs).1 = fs ∧
  (run pr fs).2 =
  Raised (match fs !! output_file pr, fs !! script_dir pr with
          | Some _, _ => IsADirectoryError (output_file pr)
          | None, Some _ => NotADirectoryError (output_file pr)
          | None, None => FileNotFoundError (output_file pr)
          end).
Proof.
  unfold can_open, run, run_in, concatenate_lib_classes, bind, open_w.
  rewrite dirname_output_file.
  destruct (fs !! output_file pr) as [[c | ns] |]; [done | done |].
  by destruct (fs !! script_dir pr) as [[c | ns] |].
Qed.

Lemma unopenable_output_changes_nothing_witness :
  (run proc0 fs_output_is_dir).1 = fs_output_is_dir ∧
  (run proc0 fs_output_is_dir).2
  = Raised (IsADirectoryError "/repo/classes.txt").
Proof.
  apply (unopenable_output_changes_nothing proc0 fs_output_is_dir).
  reflexivity.
Defined.

(** ** The shape of the text in [classes.txt] *)

Section text_shape.

Lemma universal_newlines_cons (c : ascii) (s : string) :
  universal_newlines (String c s) =
  if Ascii.eqb c CR
  then String LF (match s with
                  | String d s' =>
                      if Ascii.eqb d LF then universal_newlines s'
                      else universal_newlines s
                  | "" => ""
                  end)
  else String c (universal_newlines s).
Proof. reflexivity. Qed.

(** Both facts at once, for a string and its tail, so that the step over
    ["\r\n"] has the fact for the tail at hand. *)
Lemma universal_newlines_shape (s : string) :
  (contains CR (universal_newlines s) = false ∧
   (String.length (universal_newlines s) ≤ String.length s)%nat) ∧
  ∀ c, contains CR (universal_newlines (String c s)) = false ∧
       (String.length (universal_newlines (String c s))
        ≤ String.length (String c s))%nat.
Proof.
  assert (∀ x r, contains CR (String x r) = Ascii.eqb x CR || contains CR r)
    as Hcons by done.
  assert (Ascii.eqb LF CR = false) as Hlf by done.
  induction s as [|d s [[IH1 IH2] IH3]].
  - split; [done |]. intros c. rewrite universal_newlines_cons.
    destruct (Ascii.eqb c CR) eqn:E; [done |].
    rewrite Hcons, E. done.
  - split; [apply IH3 |]. intros c. rewrite universal_newlines_cons.
    destruct (Ascii.eqb c CR) eqn:E.
    + destruct (Ascii.eqb d LF).
      * rewrite Hcons, Hlf, IH1. split; [done |].
        cbn [String.length]. lia.
      * destruct (IH3 d) as [H1 H2]. rewrite Hcons, Hlf, H1.
        split; [done |]. cbn [String.length] in *. lia.
    + destruct (IH3 d) as [H1 H2]. rewrite Hcons, E, H1.
      split; [done |]. cbn [String.length] in *. lia.
Qed.

Lemma copy_all_no_cr (fs : FS) (paths : list string) :
  contains CR (copy_all fs paths).1 = false.
Proof.
  induction paths as [|p paths IH]; [done |]. simpl.
  destruct (is_file fs p); [| done]. simpl. unfold text_block.
  rewrite !contains_append, IH.
  by rewrite (proj1 (proj1 (universal_newlines_shape _))).
Qed.

Lemma copy_all_ends (fs : FS) (paths : list string) :
  (copy_all fs paths).1 = "" ∨ endswith (copy_all fs paths).1 newline = true.
Proof.
  induction paths as [|p paths IH]; [by left |]. simpl.
  destruct (is_file fs p); [| by left]. right. simpl.
  destruct IH as [-> | IH].
  - rewrite append_nil_r. unfold text_block. apply endswith_append.
  - apply (endswith_trans _ (copy_all fs paths).1);
      [apply endswith_append | done].
Qed.

Lemma flatten_blocks_nil (fs : FS) (paths : list string) :
  flatten (map (text_block fs) paths) = "" ↔ paths = [].
Proof.
  split; [| by intros ->]. destruct paths as [|p paths]; [done |].
  simpl. unfold text_block at 1. rewrite append_assoc.
  intros E. apply (f_equal String.length) in E.
  rewrite !length_append in E. simpl in E. lia.
Qed.

Lemma length_flatten_blocks (fs : FS) (paths : list string) :
  (String.length (flatten (map (text_block fs) paths))
   ≤ sum_list (map (λ p, S (String.length (default "" (content_of fs p))))
                 paths))%nat.
Proof.
  induction paths as [|p paths IH]; [done |]. simpl.
  unfold text_block at 1. rewrite !length_append. simpl.
  pose proof (proj2 (proj1 (universal_newlines_shape
                              (default "" (content_of fs p))))).
  lia.
Qed.

End text_shape.

(** X4: whatever the inputs hold, a run that opens [classes.txt] leaves no
    carriage return in it, so reading it back in text mode returns its
    content unchanged. *)
Theorem output_has_no_carriage_return (pr : process) (fs : FS) :
  has_magic (script_dir pr) = false →
  can_open fs (output_file pr) = true →
  ∃ text,
    content_of (run pr fs).1 (output_file pr) = Some text ∧
    contains CR text = false ∧
    read_text (output_file pr) (run pr fs).1 = ((run pr fs).1, Done text).
Proof.
  intros Hroot Hopen.
  destruct (run_result pr Hroot fs Hopen) as (_ & Hout & _).
  eexists. split; [exact Hout |].
  pose proof (copy_all_no_cr fs
                (ts_paths fs (source_folder pr)
                 ++ ts_paths fs (test_folder pr))) as Hcr.
  split; [done |].
  unfold read_text. unfold content_of in Hout.
  destruct ((run pr fs).1 !! output_file pr) as [[c | ns] |]; [| done..].
  injection Hout as ->. by rewrite universal_newlines_id.
Qed.

Lemma output_has_no_carriage_return_witness :
  contains CR (default "" (content_of fs0 "/repo/src/b.ts")) = true ∧
  ∃ text,
    content_of (run proc0 fs0).1 (output_file proc0) = Some text ∧
    contains CR text = false ∧
    read_text (output_file proc0) (run proc0 fs0).1
    = ((run proc0 fs0).1, Done text).
Proof.
  split; [reflexivity |].
  apply (output_has_no_carriage_return proc0 fs0); reflexivity.
Defined.

(** X5: under a root path without glob metacharacter, a run that opens
    [classes.txt] and is not stopped by a write the medium refuses leaves
    it empty or ending with a newline, also when an entry that cannot be
    opened stops it: only a refused write leaves the file inside a
    block. *)
Theorem output_ends_with_newline (room : option nat) (pr : process)
    (fs : FS) :
  has_magic (script_dir pr) = false →
  can_open fs (output_file pr) = true →
  (run_in room pr fs).2 ≠ Raised (OSError (output_file pr)) →
  ∃ text,
    content_of (run_in room pr fs).1 (output_file pr) = Some text ∧
    (text = "" ∨ endswith text newline = true).
Proof.
  intros Hroot Hopen Hend.
  destruct (run_in_result pr Hroot room fs Hopen) as (E & Hout & _).
  rewrite E in Hend.
  destruct (fits room _) eqn:F; [| done].
  rewrite clip_fits in Hout by done.
  eexists. split; [exact Hout | apply copy_all_ends].
Qed.

Lemma output_ends_with_newline_witness :
  (run_in (Some 7) proc0 fs_broken_tests).2
  = Raised (FileNotFoundError "/repo/tests/gone.ts") ∧
  ∃ text,
    content_of (run_in (Some 7) proc0 fs_broken_tests).1 (output_file proc0)
    = Some text ∧
    (text = "" ∨ endswith text newline = true).
Proof.
  split; [reflexivity |].
  apply (output_ends_with_newline (Some 7) proc0 fs_broken_tests);
    [reflexivity | reflexivity | by vm_compute].
Defined.

(** X6: under a root path without glob metacharacter, after a run that
    ends normally [classes.txt] is empty exactly when [*.ts] selects
    nothing in [src/] and nothing in [tests/]: even an empty input file
    leaves its newline. *)
Theorem output_empty_iff_no_match (room : option nat) (pr : process)
    (fs : FS) :
  has_magic (script_dir pr) = false →
  (run_in room pr fs).2 = Done tt →
  content_of (run_in room pr fs).1 (output_file pr) = Some "" ↔
  ts_paths fs (source_folder pr) = [] ∧ ts_paths fs (test_folder pr) = [].
Proof.
  intros Hroot Hdone.
  rewrite (run_in_done_content pr Hroot room fs Hdone).
  rewrite <- flatten_app, <- map_app. split.
  - intros [= E]. apply flatten_blocks_nil in E.
    by apply app_eq_nil in E.
  - intros [-> ->]. done.
Qed.

Lemma output_empty_iff_no_match_witness :
  (run_in None proc0 fs_no_match).2 = Done tt ∧
  content_of (run_in None proc0 fs_no_match).1 (output_file proc0) ≠ Some "" ∧
  ts_paths fs_no_match (test_folder proc0) ≠ [].
Proof.
  split; [reflexivity |].
  destruct (output_empty_iff_no_match None proc0 fs_no_match) as [H _];
    [reflexivity | reflexivity |].
  split; [| by vm_compute]. intros E. by destruct (H E).
Defined.

(** X7: under a root path without glob metacharacter, after a run that
    ends normally [classes.txt] is at most as long as the selected files
    together plus one character for each of them. *)
Theorem output_size_bound (room : option nat) (pr : process) (fs : FS) :
  has_magic (script_dir pr) = false →
  (run_in room pr fs).2 = Done tt →
  ∃ text,
    content_of (run_in room pr fs).1 (output_file pr) = Some text ∧
    (String.length text
     ≤ sum_list
         (map (λ p, S (String.length (default "" (content_of fs p))))
            (ts_paths fs (source_folder pr) ++ ts_paths fs (test_folder pr))))%nat.
Proof.
  intros Hroot Hdone.
  rewrite (run_in_done_content pr Hroot room fs Hdone).
  eexists. split; [done |].
  rewrite <- flatten_app, <- map_app. apply length_flatten_blocks.
Qed.

Lemma output_size_bound_witness :
  (run_in None proc0 fs0).2 = Done tt ∧
  ∃ text,
    content_of (run_in None proc0 fs0).1 (output_file proc0) = Some text ∧
    (String.length text ≤ 36)%nat.
Proof.
  split; [reflexivity |].
  destruct (output_size_bound None proc0 fs0) as (text & H & L);
    [reflexivity | reflexivity |].
  exists text. split; [exact H | exact L].
Defined.

(** ** What a run reads *)

(** X8: under a root path without glob metacharacter, for two file systems
    in both of which the output file can be opened, the outcome of a run
    and the content of [classes.txt] depend on the listings of [src/] and
    [tests/] and on the selected entries only: with the same two listings
    and the same selected entries the result is the same, whatever else
    differs (files with other names, hidden files, files in
    subdirectories). *)
Theorem unselected_files_are_not_read (room : option nat) (pr : process)
    (fs fs' : FS) :
  has_magic (script_dir pr) = false →
  can_open fs (output_file pr) = true →
  can_open fs' (output_file pr) = true →
  listdir fs' (source_folder pr) = listdir fs (source_folder pr) →
  listdir fs' (test_folder pr) = listdir fs (test_folder pr) →
  Forall (λ p, stat fs' p = stat fs p)
    (ts_paths fs (source_folder pr) ++ ts_paths fs (test_folder pr)) →
  (run_in room pr fs').2 = (run_in room pr fs).2 ∧
  content_of (run_in room pr fs').1 (output_file pr)
  = content_of (run_in room pr fs).1 (output_file pr).
Proof.
  intros Hroot Hopen Hopen' Hsrc Htst Hstat.
  destruct (run_in_result pr Hroot room fs Hopen) as (-> & -> & _).
  destruct (run_in_result pr Hroot room fs' Hopen') as (-> & -> & _).
  assert (ts_paths fs' (source_folder pr) = ts_paths fs (source_folder pr))
    as -> by (unfold ts_paths; by rewrite Hsrc).
  assert (ts_paths fs' (test_folder pr) = ts_paths fs (test_folder pr))
    as -> by (unfold ts_paths; by rewrite Htst).
  by rewrite (copy_all_ext fs fs' _ Hstat).
Qed.

Lemma unselected_files_are_not_read_witness :
  fs_tree_edited ≠ fs_tree ∧
  content_of (run_in None proc0 fs_tree_edited).1 (output_file proc0)
  = Some ("A" +:+ newline +:+ "T" +:+ newline) ∧
  content_of (run_in None proc0 fs_tree).1 (output_file proc0)
  = Some ("A" +:+ newline +:+ "T" +:+ newline).
Proof.
  split.
  - intros E. apply (f_equal (λ m : FS, m !! "/repo/src/lib/deep.ts")) in E.
    by vm_compute in E.
  - destruct (unselected_files_are_not_read None proc0 fs_tree fs_tree_edited)
      as [_ H]; [reflexivity.. | vm_compute; repeat constructor |].
    split; [| reflexivity]. rewrite H. reflexivity.
Defined.

(** X9: opening [classes.txt] a second time in appending mode is the same
    as keeping it open: the script and its single-pass variant leave the
    same file system and end the same way. *)
Theorem reopening_is_keeping_open (pr : process) (fs : FS) :
  has_magic (script_dir pr) = false →
  run pr fs = single_pass pr fs.
Proof.
  intros Hroot. destruct (can_open fs (output_file pr)) eqn:Hcan.
  - destruct (open_w_done fs _ Hcan) as (fs1 & Hopen & Hfix & Hsame).
    rewrite (run_opened pr Hroot fs fs1 Hopen Hfix Hsame). cbv zeta.
    destruct (output_file_not_folder pr) as [Hos Hot].
    destruct (output_dir_not_folder pr) as (Hds & Hdt & _).
    unfold single_pass.
    unfold bind at 1. rewrite Hopen.
    unfold bind at 1. unfold glob_glob at 1. rewrite (glob_source pr Hroot).
    unfold bind at 1. unfold glob_glob at 1. rewrite (glob_test pr Hroot).
    rewrite !(ts_paths_same_off pr fs fs1) by done.
    assert (Forall (λ p, p ≠ output_file pr)
              (ts_paths fs (source_folder pr) ++ ts_paths fs (test_folder pr)))
      as Hnot by (apply Forall_app; split; apply ts_paths_not_output).
    pose proof (for_each_copy None fs1 (output_file pr) "" _ Hnot eq_refl) as L.
    rewrite Hfix in L. rewrite L. clear L. simpl clip. simpl fits. cbv iota.
    rewrite (copy_all_ext fs fs1)
      by (eapply Forall_impl; [exact Hnot |]; intros p Hp; apply (Hsame p Hp)).
    change ("" +:+ ?x) with x. rewrite copy_all_app.
    by destruct (copy_all fs (ts_paths fs (source_folder pr))) as [w1 [e1 |]].
  - destruct (open_w_raised fs _ Hcan) as [e He].
    unfold run, run_in, concatenate_lib_classes, single_pass, bind.
    by rewrite He.
Qed.

Lemma reopening_is_keeping_open_witness :
  run proc0 fs_broken_tests = single_pass proc0 fs_broken_tests.
Proof. apply (reopening_is_keeping_open proc0 fs_broken_tests). reflexivity. Defined.

(** ** Which names are selected, and in which order *)

Lemma sublist_filter_bool {A} (f : A → bool) (l : list A) :
  sublist (List.filter f l) l.
Proof.
  induction l as [|x l IH]; simpl; [done |].
  destruct (f x); by constructor.
Qed.

(** X10: the names [*.ts] selects in a folder are a subsequence of its
    listing, so they keep the enumeration order, and they are exactly the
    listed names of the form [c stem .ts] with a first character [c] other
    than a dot: [.ts] alone and [.x.ts] are not selected, and matching is
    case-sensitive. *)
Theorem selected_names (fs : FS) (folder : string) :
  sublist (glob1 fs folder "*.ts") (listdir fs folder) ∧
  (∀ n, n ∈ glob1 fs folder "*.ts" ↔
        n ∈ listdir fs folder ∧
        ∃ c stem, n = String c (stem +:+ ".ts") ∧ c ≠ "."%char) ∧
  fnmatchcase "*.ts" "A.TS" = false.
Proof.
  rewrite glob1_ts. unfold matching_ts.
  split; [apply sublist_filter_bool |]. split; [| done].
  intros n. rewrite !list_elem_of_In, List.filter_In, andb_true_iff.
  rewrite negb_true_iff, endswith_spec. split.
  - intros (Hin & Hhid & [u ->]). split; [done |].
    destruct u as [|c stem]; [done |].
    exists c, stem. split; [done |]. simpl in Hhid.
    by apply Ascii.eqb_neq in Hhid.
  - intros (Hin & c & stem & -> & Hc). split; [done |]. split.
    + simpl. by apply Ascii.eqb_neq.
    + by exists (String c stem).
Qed.

(** ** Enumeration order *)

Section order.





End order.


